(** * NaNo PC Parts: the deal-scoring pipeline of [nano_pc_parts.py]

    A shallow embedding of the decision logic of [OpenRouterClient] and
    [GPUScraper]: response parsing, GPU identification with its retry loop,
    market-candidate selection, the deal rater with its banding fallback,
    title de-duplication and the final sort.

    Conventions of the model.
    - Python [str] values are [string]s read as ASCII text; the builtins
      [strip], [upper], [lower], [split], [isdigit], [startswith] and the
      two regular expressions of the pipeline are written out on them.
    - Python [float] is IEEE binary64, taken from [SpecFloat] with
      [prec = 53] and [emax = 1024]; [int] is [Z].
    - [_make_request] catches every exception and returns [Optional[str]];
      what the service answers is an input of the model ([option string]),
      never computed from the prompt. *)

From Stdlib Require Import ZArith NArith Bool Ascii String List Lia.
From Stdlib Require Import Floats.SpecFloat.
From Stdlib Require Import Sorting.Sorted.
From stdpp Require Import gmap strings list.

Local Open Scope string_scope.
Local Open Scope Z_scope.

(** ** Python builtins on ASCII text *)

Module Py.

Definition code (c : ascii) : N := N_of_ascii c.

Definition in_range (lo hi : N) (c : ascii) : bool :=
  ((lo <=? code c) && (code c <=? hi))%N.

(** [c.isdigit()] for one character. *)
Definition is_digit (c : ascii) : bool := in_range 48 57 c.

Definition is_upper (c : ascii) : bool := in_range 65 90 c.
Definition is_lower (c : ascii) : bool := in_range 97 122 c.

(** [\w] of the [re] module: letters, digits and the underscore. *)
Definition is_word (c : ascii) : bool :=
  is_digit c || is_upper c || is_lower c || (code c =? 95)%N.

(** [c.isspace()]: TAB, LF, VT, FF, CR, the separators FS, GS, RS, US and
    the space. *)
Definition is_space (c : ascii) : bool :=
  in_range 9 13 c || in_range 28 32 c.

Definition upper_char (c : ascii) : ascii :=
  if is_lower c then ascii_of_N (code c - 32) else c.

Definition lower_char (c : ascii) : ascii :=
  if is_upper c then ascii_of_N (code c + 32) else c.

Fixpoint map_chars (f : ascii -> ascii) (s : string) : string :=
  match s with
  | EmptyString => EmptyString
  | String c r => String (f c) (map_chars f r)
  end.

(** [s.upper()] and [s.lower()]. *)
Definition upper : string -> string := map_chars upper_char.
Definition lower : string -> string := map_chars lower_char.

Definition is_empty (s : string) : bool :=
  match s with EmptyString => true | _ => false end.

Fixpoint lstrip (s : string) : string :=
  match s with
  | String c r => if is_space c then lstrip r else s
  | EmptyString => EmptyString
  end.

Fixpoint rstrip (s : string) : string :=
  match s with
  | EmptyString => EmptyString
  | String c r =>
      let r' := rstrip r in
      if is_space c && is_empty r' then EmptyString else String c r'
  end.

(** [s.strip()]. *)
Definition strip (s : string) : string := rstrip (lstrip s).

(** [s.split(sep)] for a one-character separator: never an empty list. *)
Fixpoint split (sep : ascii) (s : string) : list string :=
  match s with
  | EmptyString => [EmptyString]
  | String c r =>
      if Ascii.eqb c sep then EmptyString :: split sep r
      else match split sep r with
           | p :: ps => String c p :: ps
           | [] => [String c EmptyString]
           end
  end.

(** [sep in s] for a one-character [sep]. *)
Fixpoint contains (sep : ascii) (s : string) : bool :=
  match s with
  | EmptyString => false
  | String c r => Ascii.eqb c sep || contains sep r
  end.

(** [s.startswith(p)]. *)
Fixpoint startswith (p s : string) : bool :=
  match p, s with
  | EmptyString, _ => true
  | String a p', String b s' => Ascii.eqb a b && startswith p' s'
  | String _ _, EmptyString => false
  end.

Fixpoint all_chars (f : ascii -> bool) (s : string) : bool :=
  match s with
  | EmptyString => true
  | String c r => f c && all_chars f r
  end.

(** [s.isdigit()]: non-empty and made of digits only. *)
Definition isdigit (s : string) : bool :=
  negb (is_empty s) && all_chars is_digit s.

(** [len(s)]. *)
Definition len (s : string) : Z := Z.of_nat (String.length s).

(** [s.replace(a, b)] for one-character [a] and [b]. *)
Definition replace (a b : ascii) : string -> string :=
  map_chars (fun c => if Ascii.eqb c a then b else c).

(** Value of a decimal digit character. *)
Definition digit_val (c : ascii) : Z := Z.of_N (code c - 48).

(** [int(s)] on a string of digits, most significant first. *)
Fixpoint int_of_digits_acc (acc : Z) (s : string) : Z :=
  match s with
  | EmptyString => acc
  | String c r => int_of_digits_acc (10 * acc + digit_val c) r
  end.

Definition int_of_digits : string -> Z := int_of_digits_acc 0.

End Py.

(** ** Python values, exceptions and binary64 arithmetic *)

Inductive exn : Type :=
  | TypeError
  | ValueError
  | OverflowError
  | ZeroDivisionError.

Inductive result (A : Type) : Type :=
  | Ok (a : A)
  | Raise (e : exn).

Arguments Ok {A} a.
Arguments Raise {A} e.

Definition bind {A B : Type} (r : result A) (k : A -> result B) : result B :=
  match r with
  | Ok a => k a
  | Raise e => Raise e
  end.

Notation "'let!' x ':=' r 'in' k" := (bind r (fun x => k))
  (at level 10, x name, r at level 100, k at level 200).

Module F64.

Definition prec : Z := 53.
Definition emax : Z := 1024.

Definition float : Type := spec_float.

Definition sub : float -> float -> float := SFsub prec emax.
Definition mul : float -> float -> float := SFmul prec emax.
Definition div : float -> float -> float := SFdiv prec emax.
Definition leb : float -> float -> bool := SFleb.
Definition ltb : float -> float -> bool := SFltb.
Definition eqb : float -> float -> bool := SFeqb.

Definition zero : float := S754_zero false.
Definition inf (neg : bool) : float := S754_infinity neg.
Definition nan : float := S754_nan.

(** The binary64 nearest to the integer [z], ties to even; an infinity when
    [z] is out of range. *)
Definition of_Z (z : Z) : float := binary_normalize prec emax z 0 false.

(** [z] as an unrounded mantissa with exponent 0, for exact quotients. *)
Definition raw (z : Z) : float :=
  match z with
  | Z0 => S754_zero false
  | Zpos p => S754_finite false p 0
  | Zneg p => S754_finite true p 0
  end.

Definition is_inf (f : float) : bool :=
  match f with S754_infinity _ => true | _ => false end.

Definition is_nan (f : float) : bool :=
  match f with S754_nan => true | _ => false end.

(** Conversion of an [int] operand in mixed arithmetic and in [float(n)]:
    "int too large to convert to float". *)
Definition of_int (z : Z) : result float :=
  let f := of_Z z in
  if is_inf f then Raise OverflowError else Ok f.

(** [a / b] on two [int]s: the correctly rounded quotient. *)
Definition int_truediv (a b : Z) : result float :=
  if b =? 0 then Raise ZeroDivisionError
  else if a =? 0 then Ok (S754_zero (b <? 0))
  else
    let q := div (raw a) (raw b) in
    if is_inf q then Raise OverflowError else Ok q.

End F64.

Abbreviation float := F64.float.

#[local] Unset Elimination Schemes.

(** The values a price takes in the pipeline: [None], an [int], a [float],
    a string, or a list (of the price-comparison output). *)
Inductive pyval : Type :=
  | VNone
  | VInt (z : Z)
  | VFloat (f : float)
  | VStr (s : string)
  | VList (l : list pyval).

#[local] Set Elimination Schemes.

(** [bool(v)], as [not v] and [if v:] use it. *)
Definition truthy (v : pyval) : bool :=
  match v with
  | VNone => false
  | VInt z => negb (z =? 0)
  | VFloat f => negb (F64.eqb f F64.zero)
  | VStr s => negb (Py.is_empty s)
  | VList l => match l with [] => false | _ => true end
  end.

(** [a - b]. *)
Definition py_sub (a b : pyval) : result pyval :=
  match a, b with
  | VInt x, VInt y => Ok (VInt (x - y))
  | VInt x, VFloat g => let! f := F64.of_int x in Ok (VFloat (F64.sub f g))
  | VFloat f, VInt y => let! g := F64.of_int y in Ok (VFloat (F64.sub f g))
  | VFloat f, VFloat g => Ok (VFloat (F64.sub f g))
  | _, _ => Raise TypeError
  end.

Definition float_div (f g : float) : result float :=
  if F64.eqb g F64.zero then Raise ZeroDivisionError else Ok (F64.div f g).

(** [a / b]: always a [float] when it succeeds. *)
Definition py_truediv (a b : pyval) : result float :=
  match a, b with
  | VInt x, VInt y => F64.int_truediv x y
  | VInt x, VFloat g => let! f := F64.of_int x in float_div f g
  | VFloat f, VInt y => let! g := F64.of_int y in float_div f g
  | VFloat f, VFloat g => float_div f g
  | _, _ => Raise TypeError
  end.

(** ** [float(s)] on a string *)

Module PyFloat.

(** The whitespace [float] skips at both ends of an ASCII string (the C
    locale's: TAB, LF, VT, FF, CR and the space). *)
Definition is_c_space (c : ascii) : bool :=
  Py.in_range 9 13 c || (Py.code c =? 32)%N.

Fixpoint lstrip_c (s : string) : string :=
  match s with
  | String c r => if is_c_space c then lstrip_c r else s
  | EmptyString => EmptyString
  end.

Fixpoint rstrip_c (s : string) : string :=
  match s with
  | EmptyString => EmptyString
  | String c r =>
      let r' := rstrip_c r in
      if is_c_space c && Py.is_empty r' then EmptyString else String c r'
  end.

Definition next_is_digit (s : string) : bool :=
  match s with String d _ => Py.is_digit d | EmptyString => false end.

(** An underscore is accepted between two digits only; the digits are then
    read without it. *)
Fixpoint drop_underscores (prev_digit : bool) (s : string) : option string :=
  match s with
  | EmptyString => Some EmptyString
  | String c r =>
      if Ascii.eqb c "_" then
        if prev_digit && next_is_digit r then drop_underscores false r
        else None
      else option_map (String c) (drop_underscores (Py.is_digit c) r)
  end.

(** The longest prefix made of characters in [f], and what follows it. *)
Fixpoint span (f : ascii -> bool) (s : string) : string * string :=
  match s with
  | String c r =>
      if f c then let '(a, b) := span f r in (String c a, b)
      else (EmptyString, s)
  | EmptyString => (EmptyString, EmptyString)
  end.

Definition take_sign (s : string) : bool * string :=
  match s with
  | String c r =>
      if Ascii.eqb c "-" then (true, r)
      else if Ascii.eqb c "+" then (false, r)
      else (false, s)
  | EmptyString => (false, s)
  end.

(** [number [exponent]]: integer digits, fraction digits and the exponent. *)
Definition parse_number (s : string) : option (string * string * Z) :=
  let '(ip, r1) := span Py.is_digit s in
  let '(fp, r2) :=
    match r1 with
    | String c r => if Ascii.eqb c "." then span Py.is_digit r
                    else (EmptyString, r1)
    | EmptyString => (EmptyString, r1)
    end in
  if Py.is_empty ip && Py.is_empty fp then None
  else
    match r2 with
    | EmptyString => Some (ip, fp, 0)
    | String c r3 =>
        if Ascii.eqb c "e" || Ascii.eqb c "E" then
          let '(eneg, r4) := take_sign r3 in
          let '(ed, r5) := span Py.is_digit r4 in
          if Py.is_empty ed || negb (Py.is_empty r5) then None
          else
            let e := Py.int_of_digits ed in
            Some (ip, fp, if eneg then - e else e)
        else None
    end.

(** The binary64 nearest to [m * 10^e], for [m >= 0]. *)
Definition decimal (m e : Z) : float :=
  if m =? 0 then F64.zero
  else if 0 <=? e then F64.of_Z (m * 10 ^ e)
  else F64.div (F64.raw m) (F64.raw (10 ^ (- e))).

(** [float(s)]; [None] stands for the [ValueError]. *)
Definition float_of_str (s : string) : option float :=
  match drop_underscores false (rstrip_c (lstrip_c s)) with
  | None => None
  | Some t =>
      let '(neg, u) := take_sign t in
      let low := Py.lower u in
      if String.eqb low "inf" || String.eqb low "infinity"
      then Some (F64.inf neg)
      else if String.eqb low "nan" then Some F64.nan
      else
        match parse_number u with
        | None => None
        | Some (ip, fp, e) =>
            let m := Py.int_of_digits (ip ++ fp) in
            let f := decimal m (e - Py.len fp) in
            Some (if neg then SFopp f else f)
        end
  end.

End PyFloat.

(** ** The regular expressions of the source *)

Module Re.

(** [\b] after a matched digit: the next character is not a word
    character, or the text ends. *)
Definition boundary_after (s : string) : bool :=
  match s with
  | EmptyString => true
  | String c _ => negb (Py.is_word c)
  end.

Definition is_1_9 (c : ascii) : bool := Py.in_range 49 57 c.

(** [re.findall(r'\b([1-9]|10)\b', s)]: the groups of the successive
    matches, left to right. [prev_word] tells whether the character before
    the current position is a word character ([false] at the start). Of the
    alternation, [[1-9]] is tried first and [10] second. *)
Fixpoint findall_1_10 (prev_word : bool) (s : string) : list string :=
  match s with
  | EmptyString => []
  | String c r =>
      if negb prev_word && is_1_9 c && boundary_after r then
        String c EmptyString :: findall_1_10 true r
      else
        match r with
        | String d r' =>
            if negb prev_word && Ascii.eqb c "1" && Ascii.eqb d "0"
               && boundary_after r'
            then "10" :: findall_1_10 true r'
            else findall_1_10 (Py.is_word c) r
        | EmptyString => findall_1_10 (Py.is_word c) r
        end
  end.

Definition findall_rating (s : string) : list string := findall_1_10 false s.

Definition is_digit_or_comma (c : ascii) : bool :=
  Py.is_digit c || Ascii.eqb c ",".

(** One match of [[\d,]+\.?\d*] at the head of [s], which starts with a
    character of the class: all three parts are greedy and none ever has to
    give a character back. *)
Definition match_price_here (s : string) : string :=
  let '(a, r1) := PyFloat.span is_digit_or_comma s in
  match r1 with
  | String c r2 =>
      if Ascii.eqb c "." then
        let '(b, _) := PyFloat.span Py.is_digit r2 in a ++ "." ++ b
      else a
  | EmptyString => a
  end.

(** The first element of [re.findall(r'[\d,]+\.?\d*', s)], if any. *)
Fixpoint search_price (s : string) : option string :=
  match s with
  | EmptyString => None
  | String c r =>
      if is_digit_or_comma c then Some (match_price_here s)
      else search_price r
  end.

End Re.

(** ** The completion service seen from the pipeline *)

(** The outcomes of the successive [_make_request] calls still to come
    ([None]: the call failed and was caught inside [_make_request]), the
    number of calls made so far and the number of one-second sleeps. Once the
    outcomes are used up every further call fails. *)
Record world : Type := {
  pending : list (option string);
  calls : nat;
  sleeps : nat
}.

Definition fresh (outcomes : list (option string)) : world :=
  {| pending := outcomes; calls := 0; sleeps := 0 |}.

(** [self.openrouter._make_request(prompt, max_tokens)]. *)
Definition _make_request (w : world) : option string * world :=
  match pending w with
  | [] => (None, {| pending := []; calls := S (calls w); sleeps := sleeps w |})
  | o :: rest => (o, {| pending := rest; calls := S (calls w); sleeps := sleeps w |})
  end.

(** [time.sleep(1)]. *)
Definition sleep_1 (w : world) : world :=
  {| pending := pending w; calls := calls w; sleeps := S (sleeps w) |}.

(** [if response:] on an [Optional[str]]: neither [None] nor empty. *)
Definition has_text (response : option string) : option string :=
  match response with
  | Some s => if Py.is_empty s then None else Some s
  | None => None
  end.

(** ** Listings *)

(** The dictionary built by the two fetchers. [price] is [None] when the key
    is missing, as [listing.get('price', 0)] allows. *)
Record listing : Type := {
  source : string;
  title : string;
  description : string;
  url : string;
  price : option pyval;
  image_url : string;
  user : string;
  created_at : string
}.

(** ** [OpenRouterClient.generate_deal_rating] *)

(** Lines 157-162: a string price goes through [float], and becomes the
    integer 0 when [float] raises. *)
Definition convert_listing_price (listing_price : pyval) : pyval :=
  match listing_price with
  | VStr s =>
      match PyFloat.float_of_str s with
      | Some f => VFloat f
      | None => VInt 0
      end
  | v => v
  end.

(** Line 168: [((listing_price - current_price) / current_price) * 100]. *)
Definition price_difference (listing_price current_price : pyval) : result float :=
  let! d := py_sub listing_price current_price in
  let! q := py_truediv d current_price in
  Ok (F64.mul q (F64.of_Z 100)).

(** Lines 196-199: the rating read from a response. *)
Definition parse_rating (response : string) : option Z :=
  match Re.findall_rating response with
  | n :: _ => Some (Z.max 1 (Z.min 10 (Py.int_of_digits n)))
  | [] => None
  end.

(** Lines 204-223: the fallback cascade. *)
Definition fallback_rating (price_diff : float) : Z :=
  if F64.leb price_diff (F64.of_Z (-30)) then 10
  else if F64.leb price_diff (F64.of_Z (-20)) then 9
  else if F64.leb price_diff (F64.of_Z (-10)) then 8
  else if F64.leb price_diff (F64.of_Z (-5)) then 7
  else if F64.leb price_diff (F64.of_Z 0) then 6
  else if F64.leb price_diff (F64.of_Z 5) then 5
  else if F64.leb price_diff (F64.of_Z 10) then 4
  else if F64.leb price_diff (F64.of_Z 20) then 3
  else if F64.leb price_diff (F64.of_Z 30) then 2
  else 1.

Definition generate_deal_rating (l : listing) (current_price : pyval)
    (w : world) : result Z * world :=
  let listing_price := convert_listing_price (default (VInt 0) (price l)) in
  if negb (truthy current_price) || negb (truthy listing_price) then (Ok 5, w)
  else
    match price_difference listing_price current_price with
    | Raise e => (Raise e, w)
    | Ok price_diff =>
        let '(response, w1) := _make_request w in
        match has_text response with
        | Some r =>
            match parse_rating r with
            | Some rating => (Ok rating, w1)
            | None => (Ok (fallback_rating price_diff), w1)
            end
        | None => (Ok (fallback_rating price_diff), w1)
        end
    end.

(** The deal rater on two prices, as the specification calls it. *)
Definition priced (p : pyval) : listing :=
  {| source := EmptyString; title := EmptyString; description := EmptyString;
     url := EmptyString; price := Some p; image_url := EmptyString;
     user := EmptyString; created_at := EmptyString |}.

Definition rate (listing_price current_price : pyval) (w : world) : result Z :=
  fst (generate_deal_rating (priced listing_price) current_price w).


(** ** [GPUScraper._extract_price] *)

Fixpoint _extract_price (price_data : pyval) : result float :=
  match price_data with
  | VInt z => F64.of_int z
  | VFloat f => Ok f
  | VStr s =>
      match Re.search_price (Py.replace "," "." s) with
      | Some n =>
          match PyFloat.float_of_str n with
          | Some f => Ok f
          | None => Raise ValueError
          end
      | None => Ok F64.zero
      end
  | VList (first :: _) => _extract_price first
  | VList [] => Ok F64.zero
  | VNone => Ok F64.zero
  end.

(** ** [GPUScraper._remove_duplicates] *)

(** Line 390: [listing.get('title', '').lower().strip()]. *)
Definition title_key (l : listing) : string := Py.strip (Py.lower (title l)).

(** The loop of lines 389-393, [seen_titles] being the set built so far;
    the result lists the appended listings in the order of their [append]. *)
Fixpoint remove_duplicates_from (seen_titles : gset string)
    (listings : list listing) : list listing :=
  match listings with
  | [] => []
  | l :: rest =>
      let t := title_key l in
      if negb (Py.is_empty t) && bool_decide (t ∉ seen_titles)
      then l :: remove_duplicates_from ({[t]} ∪ seen_titles) rest
      else remove_duplicates_from seen_titles rest
  end.

Definition _remove_duplicates : list listing -> list listing :=
  remove_duplicates_from ∅.

(** ** [GPUScraper._extract_gpu_from_listing] *)

(** Line 517: the validation of a brand and a model. *)
Definition valid_brand (brand : string) : bool :=
  String.eqb brand "RTX" || String.eqb brand "GTX" || String.eqb brand "RX".

Definition valid_model (model : string) : bool :=
  Py.isdigit model && ((Py.len model =? 3) || (Py.len model =? 4)).

(** Lines 511-514: the brand synonyms. *)
Definition normalize_brand (brand : string) : string :=
  if Py.startswith "GEFORCE" brand then "GTX"
  else if Py.startswith "QUADRO" brand then "GTX"
  else brand.

(** What one non-empty response leads to (lines 496-523). *)
Inductive verdict : Type :=
  | Found (keyword : string)   (* [return f"{brand},{model}"] *)
  | NoGpu                      (* the literal NONE: [return None] *)
  | Rejected.                  (* falls through to the next attempt *)

Definition parse_gpu_response (response : string) : verdict :=
  let line := Py.strip response in
  if String.eqb (Py.upper line) "NONE" then NoGpu
  else if Py.contains "," line then
    match Py.split "," line with
    | [p0; p1] =>
        let brand := normalize_brand (Py.strip (Py.upper p0)) in
        let model := Py.strip (Py.upper p1) in
        if valid_brand brand && valid_model model
        then Found (brand ++ "," ++ model)
        else Rejected
    | _ => Rejected
    end
  else Rejected.

(** The [for attempt in range(3)] loop, on the attempts still to run. *)
Fixpoint attempt_loop (attempts : list nat) (w : world) : option string * world :=
  match attempts with
  | [] => (None, w)
  | attempt :: rest =>
      let '(response, w1) := _make_request w in
      match has_text response with
      | Some r =>
          match parse_gpu_response r with
          | Found keyword => (Some keyword, w1)
          | NoGpu => (None, w1)
          | Rejected => attempt_loop rest w1
          end
      | None =>
          attempt_loop rest (if (attempt <? 2)%nat then sleep_1 w1 else w1)
      end
  end.

Definition _extract_gpu_from_listing (text : string) (w : world)
    : option string * world :=
  attempt_loop (seq 0 3) w.

(** ** [GPUScraper._find_best_match_with_ai] *)

(** One entry of the price-comparison output; [m_price] is [None] when the
    entry has no ['price'] key. *)
Record market_item : Type := {
  m_raw_text : string;
  m_price : option pyval;
  m_url : string
}.

(** Lines 586-590: the index read from a response, when it designates one
    of the [n_options] listed options. *)
Definition parse_index (n_options : nat) (response : string) : option nat :=
  match Re.findall_rating response with
  | n :: _ =>
      let index := Py.int_of_digits n - 1 in
      if (0 <=? index) && (index <? Z.of_nat n_options)
      then Some (Z.to_nat index) else None
  | [] => None
  end.

Definition _find_best_match_with_ai (l : listing) (price_data : list market_item)
    (w : world) : option market_item * world :=
  let price_options := take 10 price_data in
  match price_options with
  | [] => (None, w)
  | _ :: _ =>
      let '(response, w1) := _make_request w in
      let fallback := head price_data in
      match has_text response with
      | Some r =>
          match parse_index (length price_options) r with
          | Some index => (price_data !! index, w1)
          | None => (fallback, w1)
          end
      | None => (fallback, w1)
      end
  end.

(** ** [GPUScraper.run_price_comparison_for_listing] *)

Record price_result : Type := {
  gpu_keyword : string;
  current_price : float;
  matched_item : market_item
}.

(** [lookup keyword] is what the [pc_component_mixer.py] subprocess leaves
    for the keyword: [None] for a non-zero return code, a timeout or an
    unreadable result file, else the list of entries read back. *)
Definition run_price_comparison_for_listing (l : listing)
    (lookup : string -> option (list market_item)) (w : world)
    : option price_result * world :=
  if Py.is_empty (title l) then (None, w)
  else
    let combined_text := Py.strip (title l ++ " " ++ description l) in
    let '(found, w1) := _extract_gpu_from_listing combined_text w in
    match found with
    | None => (None, w1)
    | Some keyword =>
        match lookup keyword with
        | None | Some [] => (None, w1)
        | Some price_data =>
            let '(best_match, w2) := _find_best_match_with_ai l price_data w1 in
            match best_match with
            | None => (None, w2)
            | Some item =>
                match _extract_price (default (VInt 0) (m_price item)) with
                | Ok p =>
                    (Some {| gpu_keyword := keyword; current_price := p;
                             matched_item := item |}, w2)
                | Raise _ => (None, w2)
                end
            end
        end
    end.

(** ** The two fetchers, from the listings the marketplaces return *)

Definition with_source (src : string) (l : listing) : listing :=
  {| source := src; title := title l; description := description l;
     url := url l; price := price l; image_url := image_url l;
     user := user l; created_at := created_at l |}.

(** [needle in text]. *)
Fixpoint substring (needle text : string) : bool :=
  Py.startswith needle text ||
  match text with
  | EmptyString => false
  | String _ r => substring needle r
  end.

(** Lines 329-330: the keyword filter of the Leboncoin fetcher. *)
Definition gpu_keywords : list string :=
  ["carte graphique"; "graphics"; "gpu"; "rtx"; "gtx"; "radeon"; "geforce"].

Definition is_gpu_ad (ad : listing) : bool :=
  let ad_text := Py.lower (title ad ++ " " ++ description ad) in
  existsb (fun keyword => substring keyword ad_text) gpu_keywords.

(** [found] is the answer of the marketplace client, [None] when the call
    raised (the fetcher then returns the empty list). *)
Definition fetch_vinted_gpus (limit : nat) (found : option (list listing))
    : list listing :=
  match found with
  | None => []
  | Some items =>
      take limit (_remove_duplicates (map (with_source "vinted") items))
  end.

Definition fetch_leboncoin_gpus (limit : nat) (found : option (list listing))
    : list listing :=
  match found with
  | None => []
  | Some ads =>
      take limit (_remove_duplicates
                    (map (with_source "leboncoin") (List.filter is_gpu_ad ads)))
  end.

(** ** [GPUScraper.process_listings] *)

(** One element of [final_results]. The display fields copied from the
    listing stay in [deal_listing]. *)
Record scored_deal : Type := {
  deal_listing : listing;
  deal_current_price : option float;
  ai_keywords : list string;
  rating : Z;
  matched_market_item : option market_item
}.

Definition from_source (src : string) (l : listing) : bool :=
  String.eqb (source l) src.

(** Lines 603-624: the listings that enter the per-listing loop. *)
Definition test_listings (vinted_found leboncoin_found : option (list listing))
    : list listing :=
  let vinted_listings := fetch_vinted_gpus 100 vinted_found in
  let leboncoin_listings := fetch_leboncoin_gpus 100 leboncoin_found in
  let all_listings := (vinted_listings ++ leboncoin_listings)%list in
  let vinted_test := take 10 (List.filter (from_source "vinted") all_listings) in
  let leboncoin_test :=
    take 10 (List.filter (from_source "leboncoin") all_listings) in
  (vinted_test ++ leboncoin_test)%list.

(** Lines 627-683: the loop body, then the rest of the loop. An exception of
    [generate_deal_rating] is not caught and ends the run. *)
Fixpoint process_each (todo : list listing)
    (lookup : string -> option (list market_item)) (w : world)
    : result (list scored_deal) * world :=
  match todo with
  | [] => (Ok [], w)
  | l :: rest =>
      let '(found, w1) := run_price_comparison_for_listing l lookup w in
      match found with
      | Some pr =>
          let '(rated, w2) := generate_deal_rating l (VFloat (current_price pr)) w1 in
          match rated with
          | Raise e => (Raise e, w2)
          | Ok r =>
              let deal :=
                {| deal_listing := l;
                   deal_current_price := Some (current_price pr);
                   ai_keywords := [gpu_keyword pr];
                   rating := r;
                   matched_market_item := Some (matched_item pr) |} in
              let '(others, w3) := process_each rest lookup w2 in
              (let! ds := others in Ok (deal :: ds), w3)
          end
      | None =>
          let deal :=
            {| deal_listing := l; deal_current_price := None;
               ai_keywords := []; rating := 5;
               matched_market_item := None |} in
          let '(others, w2) := process_each rest lookup w1 in
          (let! ds := others in Ok (deal :: ds), w2)
      end
  end.

(** [list.sort(key=lambda x: x['rating'], reverse=True)]: the stable sort of
    the language, descending. An element goes in front of the first one whose
    rating is not greater than its own. *)
Fixpoint insert_by_rating (d : scored_deal) (sorted : list scored_deal)
    : list scored_deal :=
  match sorted with
  | [] => [d]
  | y :: r =>
      if rating d <? rating y then y :: insert_by_rating d r
      else d :: sorted
  end.

Fixpoint sort_by_rating_desc (final_results : list scored_deal)
    : list scored_deal :=
  match final_results with
  | [] => []
  | d :: r => insert_by_rating d (sort_by_rating_desc r)
  end.

Definition process_listings (vinted_found leboncoin_found : option (list listing))
    (lookup : string -> option (list market_item)) (w : world)
    : result (list scored_deal) * world :=
  let '(final_results, w1) :=
    process_each (test_listings vinted_found leboncoin_found) lookup w in
  (let! ds := final_results in Ok (sort_by_rating_desc ds), w1).

(** ** The banding table of the specification *)



(** The completion service yields no parsable rating on its next call: the
    call fails, answers nothing, or answers a text without a number from 1
    to 10 standing alone. *)
Definition no_rating (w : world) : Prop :=
  forall r, has_text (fst (_make_request w)) = Some r -> parse_rating r = None.

(** ** Classes of prices used in the statements about the rater *)

(** A price that is absent or zero: [None], [0], [0.0] or [-0.0]. *)
Definition absent_or_zero (v : pyval) : Prop :=
  match v with
  | VNone => True
  | VInt z => z = 0
  | VFloat f => F64.eqb f F64.zero = true
  | _ => False
  end.


(** A listing price that is [None], a [float], a string, or an [int] that
    [float] can represent. *)
Definition usable_listing_price (v : pyval) : Prop :=
  match v with
  | VNone | VFloat _ | VStr _ => True
  | VInt z => F64.is_inf (F64.of_Z z) = false
  | VList _ => False
  end.

(** ** GPU identities, as the specification defines them *)

Definition decimal_digits : list ascii :=
  ["0"; "1"; "2"; "3"; "4"; "5"; "6"; "7"; "8"; "9"]%char.

(** A model is a string of exactly 3 or 4 decimal digits. *)
Definition spec_model (model : string) : Prop :=
  (String.length model = 3 \/ String.length model = 4)%nat
  /\ Forall (fun c => In c decimal_digits) (list_ascii_of_string model).

(** A brand is one of RTX, GTX and RX. *)
Definition spec_brand (brand : string) : Prop :=
  brand = "RTX" \/ brand = "GTX" \/ brand = "RX".

(** The keyword [BRAND,MODEL] of a valid identity. *)
Definition spec_identity (keyword : string) : Prop :=
  exists brand model,
    keyword = brand ++ "," ++ model /\ spec_brand brand /\ spec_model model.




(** Two advertisements for the same card, one on each marketplace. *)
Definition example_vinted_ad : listing :=
  {| source := EmptyString; title := "RTX 3070 8GB like new";
     description := "Carte graphique, peu servie"; url := "https://www.vinted.fr/items/1";
     price := Some (VStr "180.0"); image_url := EmptyString;
     user := "alice"; created_at := "1700000000" |}.

Definition example_leboncoin_ad : listing :=
  {| source := EmptyString; title := " rtx 3070 8gb LIKE NEW ";
     description := "carte graphique"; url := "https://www.leboncoin.fr/ad/2";
     price := Some (VFloat (F64.of_Z 175)); image_url := EmptyString;
     user := "bob"; created_at := "2024-01-01" |}.


Definition example_items : list market_item :=
  [ {| m_raw_text := "MSI GeForce RTX 3070 8 GB"; m_price := Some (VFloat (F64.of_Z 250));
       m_url := "https://fr.pcpartpicker.com/product/a" |};
    {| m_raw_text := "Asus GeForce RTX 3070 Ti 8 GB"; m_price := Some (VStr "299.90");
       m_url := "https://fr.pcpartpicker.com/product/b" |};
    {| m_raw_text := "Gigabyte GeForce RTX 3060 12 GB"; m_price := None;
       m_url := "https://fr.pcpartpicker.com/product/c" |} ].

(** A numeral as the price expression finds it once commas are gone:
    digits, then possibly a point and more digits. *)
Definition plain_numeral (n : string) : Prop :=
  exists a b,
    Py.isdigit a = true /\ Py.all_chars Py.is_digit b = true
    /\ (n = a \/ n = a ++ "." ++ b).

Definition numeral_char (c : ascii) : bool := Py.is_digit c || Ascii.eqb c ".".

(** ** The order of the final output *)

(** Ratings never increase along the list. *)
Definition descending (ds : list scored_deal) : Prop :=
  StronglySorted (fun a b => rating b <= rating a) ds.

(** The deals of a list that have the rating [r], in their order. *)
Definition with_rating (r : Z) (ds : list scored_deal) : list scored_deal :=
  List.filter (fun d => rating d =? r) ds.

(** A deal that nothing but its title and rating tells apart. *)
Definition deal_titled (t : string) (r : Z) : scored_deal :=
  {| deal_listing :=
       {| source := "vinted"; title := t; description := EmptyString;
          url := EmptyString; price := None; image_url := EmptyString;
          user := EmptyString; created_at := EmptyString |};
     deal_current_price := None; ai_keywords := []; rating := r;
     matched_market_item := None |}.

(** * The rest of [nano_pc_parts.py] and the dashboard's rating classes *)

(** ** The expression [(RTX|GTX|RX)\s*(\d{3,4})] *)

Module ReGpu.

(** What follows the literal [p] at the head of [s], if [s] starts with it. *)
Fixpoint after_prefix (p s : string) : option string :=
  match p, s with
  | EmptyString, _ => Some s
  | String a p', String b s' =>
      if Ascii.eqb a b then after_prefix p' s' else None
  | String _ _, EmptyString => None
  end.

(** [\d{lo,hi}] at the head of [s], greedy: the digits taken. A shorter
    repetition is tried only when the longer one has no digit to take, and
    nothing follows the repetition in the expressions of the source. *)
Definition four_digits (s : string) : option string :=
  match s with
  | String a (String b (String c (String d _))) =>
      if Py.is_digit a && Py.is_digit b && Py.is_digit c && Py.is_digit d
      then Some (String a (String b (String c (String d EmptyString))))
      else None
  | _ => None
  end.

Definition three_digits (s : string) : option string :=
  match s with
  | String a (String b (String c _)) =>
      if Py.is_digit a && Py.is_digit b && Py.is_digit c
      then Some (String a (String b (String c EmptyString)))
      else None
  | _ => None
  end.

Definition digits_3_4 (s : string) : option string :=
  match four_digits s with
  | Some m => Some m
  | None => three_digits s
  end.

(** One alternative of the group at the head of [s]: the brand, then
    [\s*] (all the white space there is: what follows it starts with a
    digit), then the model. *)
Definition brand_here (brand s : string) : option (string * string) :=
  match after_prefix brand s with
  | Some r =>
      match digits_3_4 (Py.lstrip r) with
      | Some model => Some (brand, model)
      | None => None
      end
  | None => None
  end.

(** The alternatives in the order of the expression. *)
Definition match_here (s : string) : option (string * string) :=
  match brand_here "RTX" s with
  | Some g => Some g
  | None =>
      match brand_here "GTX" s with
      | Some g => Some g
      | None => brand_here "RX" s
      end
  end.

(** [re.search(r'(RTX|GTX|RX)\s*(\d{3,4})', s)]: the two groups of the
    leftmost match. *)
Fixpoint search (s : string) : option (string * string) :=
  match match_here s with
  | Some g => Some g
  | None =>
      match s with
      | String _ r => search r
      | EmptyString => None
      end
  end.

End ReGpu.

(** ** [OpenRouterClient.extract_gpu_keywords] *)

(** Lines 57-59: [f"{title} {description}".strip()]. *)
Definition combined_text (l : listing) : string :=
  Py.strip (title l ++ " " ++ description l).

(** Lines 55-61: the texts of the first 50 listings that are not empty. *)
Definition titles_descriptions (listings : list listing) : list string :=
  List.filter (fun t => negb (Py.is_empty t)) (map combined_text (take 50 listings)).

(** Lines 86-110: the keyword one line of the response adds, if any. *)
Definition keyword_of_line (raw : string) : option string :=
  let line := Py.strip raw in
  if negb (Py.is_empty line) && Py.contains "," line
     && negb (Py.startswith "#" line)
  then
    match Py.split "," line with
    | [p0; p1] =>
        let brand := Py.strip (Py.upper p0) in
        let model := Py.strip (Py.upper p1) in
        match ReGpu.search model with
        | Some (gpu_brand, gpu_model) => Some (gpu_brand ++ "," ++ gpu_model)
        | None =>
            if valid_brand brand && valid_model model
            then Some (brand ++ "," ++ model)
            else if Py.is_empty brand
                    && (Py.startswith "RTX" model || Py.startswith "GTX" model
                        || Py.startswith "RX" model)
            then
              match ReGpu.search model with
              | Some (gpu_brand, gpu_model) => Some (gpu_brand ++ "," ++ gpu_model)
              | None => None
              end
            else None
        end
    | _ => None
    end
  else None.

(** The line feed, on which the response is split. *)
Definition newline : ascii := "010"%char.

(** Lines 84-111: the keywords of a response, the first 20 of them. *)
Definition keywords_of_response (response : string) : list string :=
  take 20 (omap keyword_of_line (Py.split newline response)).

(** The whole method. [_make_request] raises nothing and the parsing of a
    string raises nothing, so the [except] branch, the only caller of
    [_extract_keywords_fallback], is never taken. *)
Definition extract_gpu_keywords (listings : list listing) (w : world)
    : list string * world :=
  match titles_descriptions listings with
  | [] => ([], w)
  | _ :: _ =>
      let '(response, w1) := _make_request w in
      match has_text response with
      | Some r => (keywords_of_response r, w1)
      | None => ([], w1)
      end
  end.

(** ** [OpenRouterClient._extract_keywords_fallback] *)

(** One of the six expressions of [gpu_patterns]: its text, and the literal
    words it is made of; [\s*] stands between two words and [\s*(\d{4})]
    after the last one. *)
Record gpu_pattern : Type := {
  pattern_text : string;
  pattern_words : list string
}.

Definition gpu_patterns : list gpu_pattern :=
  [ {| pattern_text := "RTX\s*(\d{4})"; pattern_words := ["RTX"] |};
    {| pattern_text := "GTX\s*(\d{4})"; pattern_words := ["GTX"] |};
    {| pattern_text := "RX\s*(\d{4})"; pattern_words := ["RX"] |};
    {| pattern_text := "Radeon\s*RX\s*(\d{4})"; pattern_words := ["Radeon"; "RX"] |};
    {| pattern_text := "GeForce\s*RTX\s*(\d{4})"; pattern_words := ["GeForce"; "RTX"] |};
    {| pattern_text := "GeForce\s*GTX\s*(\d{4})"; pattern_words := ["GeForce"; "GTX"] |} ].

(** The words in turn, each followed by all the white space there is (what
    comes next never starts with white space); what is left of [s]. *)
Fixpoint match_words (words : list string) (s : string) : option string :=
  match words with
  | [] => Some s
  | word :: more =>
      match ReGpu.after_prefix word s with
      | Some r => match_words more (Py.lstrip r)
      | None => None
      end
  end.

(** One match at the head of [s]: the group and the number of characters
    the match takes. *)
Definition match_pattern_here (words : list string) (s : string)
    : option (string * nat) :=
  match match_words words s with
  | Some r =>
      match ReGpu.four_digits r with
      | Some g => Some (g, (String.length s - String.length r + 4)%nat)
      | None => None
      end
  | None => None
  end.

(** [re.findall(pattern, s)]: the groups of the successive matches, none
    overlapping another; [skip] characters belong to the last match. *)
Fixpoint findall_from (words : list string) (skip : nat) (s : string)
    : list string :=
  match s with
  | EmptyString => []
  | String _ r =>
      match skip with
      | S k => findall_from words k r
      | O =>
          match match_pattern_here words s with
          | Some (g, n) => g :: findall_from words (n - 1) r
          | None => findall_from words 0 r
          end
      end
  end.

Definition findall_pattern (p : gpu_pattern) (s : string) : list string :=
  findall_from (pattern_words p) 0 s.

(** Lines 143-148: the brand a pattern stands for, read off its text. *)
Definition brand_tag (p : gpu_pattern) : option string :=
  if substring "RTX" (pattern_text p) then Some "RTX"
  else if substring "GTX" (pattern_text p) then Some "GTX"
  else if substring "RX" (pattern_text p) then Some "RX"
  else None.

(** Lines 140-148 for one pattern and one text. *)
Definition pattern_keywords (text : string) (p : gpu_pattern) : gset string :=
  match brand_tag p with
  | Some brand =>
      list_to_set (map (fun m => brand ++ "," ++ m) (findall_pattern p text))
  | None => ∅
  end.

(** Lines 136-138: the upper-cased title and description, joined. *)
Definition fallback_text (l : listing) : string :=
  Py.upper (title l) ++ " " ++ Py.upper (description l).

(** The set [keywords] when the loops of lines 135-148 end. *)
Definition fallback_keywords (listings : list listing) : gset string :=
  ⋃ (map (fun l => ⋃ (map (pattern_keywords (fallback_text l)) gpu_patterns))
         (take 50 listings)).

(** Line 150, [list(keywords)[:20]]: up to 20 distinct elements of the set,
    in the order the language iterates it, which the set does not fix. *)
Definition _extract_keywords_fallback (listings : list listing)
    (result : list string) : Prop :=
  NoDup result
  /\ (forall k, k ∈ result -> k ∈ fallback_keywords listings)
  /\ length result = Nat.min 20 (size (fallback_keywords listings)).

(** ** [get_rating_color] of [streamlit_app.py] *)

Definition get_rating_color (rating : Z) : string :=
  if 8 <=? rating then "rating-excellent"
  else if 6 <=? rating then "rating-good"
  else if 4 <=? rating then "rating-average"
  else "rating-poor".

(** ** Deals and worlds used in the statements about a run *)

(** The deal of lines 663-678, for a listing without price comparison. *)
Definition unpriced_deal (l : listing) : scored_deal :=
  {| deal_listing := l; deal_current_price := None; ai_keywords := [];
     rating := 5; matched_market_item := None |}.


(** A model of exactly four decimal digits. *)
Definition spec_model_4 (model : string) : Prop :=
  String.length model = 4%nat
  /\ Forall (fun c => In c decimal_digits) (list_ascii_of_string model).

(** A listing whose title and description hold white space only. *)
Definition blank_listing (l : listing) : Prop :=
  Py.all_chars Py.is_space (title l) = true
  /\ Py.all_chars Py.is_space (description l) = true.

(** A keyword [BRAND,MODEL] whose model has four digits. *)
Definition spec_identity_4 (keyword : string) : Prop :=
  exists brand model,
    keyword = brand ++ "," ++ model /\ spec_brand brand /\ spec_model_4 model.

(** What every deal of a run looks like: a rating from 1 to 10, and either
    the default deal of its listing (no price comparison) or one keyword, a
    market price and the market entry the price was read from. *)
Definition well_formed_deal (d : scored_deal) : Prop :=
  1 <= rating d <= 10
  /\ (d = unpriced_deal (deal_listing d)
      \/ exists k item p,
           ai_keywords d = [k] /\ spec_identity k
           /\ deal_current_price d = Some p
           /\ matched_market_item d = Some item
           /\ _extract_price (default (VInt 0) (m_price item)) = Ok p).

(** * Properties *)

(** ** The builtins on examples *)

Example strip_ex : Py.strip "  RTX,3070  " = "RTX,3070".
Proof. reflexivity. Qed.

Example split_ex : Py.split "," "a,b,,c" = ["a"; "b"; EmptyString; "c"].
Proof. reflexivity. Qed.

Example upper_ex : Py.upper "GeForce2 gtx_9" = "GEFORCE2 GTX_9".
Proof. reflexivity. Qed.

Example of_Z_100 : F64.of_Z 100 = S754_finite false 7036874417766400 (-46).
Proof. reflexivity. Qed.

Example int_truediv_ex :
  F64.int_truediv 1 10 = Ok (S754_finite false 7205759403792794 (-56)).
Proof. reflexivity. Qed.

Example float_of_str_12_5 :
  PyFloat.float_of_str " 12.5 " = Some (S754_finite false 7036874417766400 (-49)).
Proof. vm_compute. reflexivity. Qed.

Example float_of_str_tenth :
  PyFloat.float_of_str "1_0e-2" = Some (S754_finite false 7205759403792794 (-56)).
Proof. vm_compute. reflexivity. Qed.

Example float_of_str_bad :
  PyFloat.float_of_str "12,5" = None /\ PyFloat.float_of_str "abc" = None
  /\ PyFloat.float_of_str EmptyString = None /\ PyFloat.float_of_str "1e" = None
  /\ PyFloat.float_of_str "1__0" = None /\ PyFloat.float_of_str "." = None.
Proof. vm_compute. repeat split. Qed.

Example float_of_str_special :
  PyFloat.float_of_str "-Infinity" = Some (S754_infinity true)
  /\ PyFloat.float_of_str "NaN" = Some S754_nan
  /\ PyFloat.float_of_str "1e999" = Some (S754_infinity false)
  /\ PyFloat.float_of_str "-0" = Some (S754_zero true).
Proof. vm_compute. repeat split. Qed.

Example findall_ex1 : Re.findall_rating "Rating: 7/10" = ["7"; "10"].
Proof. reflexivity. Qed.

Example findall_ex2 : Re.findall_rating "15, then 100 or x3 and 10." = ["10"].
Proof. reflexivity. Qed.

Example findall_ex3 : Re.findall_rating "8.5" = ["8"; "5"].
Proof. reflexivity. Qed.

Example search_price_ex1 : Re.search_price "EUR 1.299.99" = Some "1.299".
Proof. reflexivity. Qed.

Example search_price_ex2 : Re.search_price "abc" = None.
Proof. reflexivity. Qed.

Example rate_65_100 : rate (VInt 65) (VInt 100) (fresh []) = Ok 10.
Proof. vm_compute. reflexivity. Qed.

Example rate_95_100 : rate (VInt 95) (VFloat (F64.of_Z 100)) (fresh []) = Ok 7.
Proof. vm_compute. reflexivity. Qed.

Example rate_110_100 : rate (VStr "110") (VFloat (F64.of_Z 100)) (fresh [Some "no idea"]) = Ok 4.
Proof. vm_compute. reflexivity. Qed.

Example rate_180_250 : rate (VInt 180) (VInt 250) (fresh []) = Ok 9.
Proof. vm_compute. reflexivity. Qed.

Example rate_neg : rate (VInt (-10)) (VInt 100) (fresh []) = Ok 10.
Proof. vm_compute. reflexivity. Qed.

Example rate_str_market : rate (VInt 50) (VStr "100") (fresh []) = Raise TypeError.
Proof. vm_compute. reflexivity. Qed.

(** ** Comparisons of binary64 *)

Section FloatOrder.

Ltac order_cases :=
  repeat match goal with
  | H : context [PosDef.Pos.compare_cont Eq ?x ?y] |- _ =>
      change (PosDef.Pos.compare_cont Eq x y) with (Pos.compare x y) in H
  | |- context [PosDef.Pos.compare_cont Eq ?x ?y] =>
      change (PosDef.Pos.compare_cont Eq x y) with (Pos.compare x y)
  | H : context [Z.compare ?x ?y] |- _ =>
      destruct (Z.compare_spec x y); simpl in H; try discriminate H
  | H : context [Pos.compare ?x ?y] |- _ =>
      destruct (Pos.compare_spec x y); simpl in H; try discriminate H
  | |- context [Z.compare ?x ?y] =>
      destruct (Z.compare_spec x y); simpl
  | |- context [Pos.compare ?x ?y] =>
      destruct (Pos.compare_spec x y); simpl
  end.


(** A comparison that fails between two numbers holds the other way. *)
Lemma leb_false_ltb (a b : float) :
  F64.is_nan a = false -> F64.is_nan b = false ->
  F64.leb a b = false -> F64.ltb b a = true.
Proof.
  unfold F64.ltb, F64.leb, SFltb, SFleb.
  destruct a as [[]|[]| |[] ma ea], b as [[]|[]| |[] mb eb];
    simpl; try discriminate; try reflexivity;
    intros _ _ H; order_cases;
    try reflexivity; try lia.
Qed.


End FloatOrder.

(** ** The deal rater *)


Lemma priced_price (p : pyval) : default (VInt 0) (price (priced p)) = p.
Proof. reflexivity. Qed.

(** Past the guard, with a price difference computed and no rating read
    from the service, the rater returns the fallback cascade's value. *)
Lemma rate_no_rating (lp cp : pyval) (d : float) (w : world) :
  truthy (convert_listing_price lp) = true -> truthy cp = true ->
  price_difference (convert_listing_price lp) cp = Ok d ->
  no_rating w ->
  rate lp cp w = Ok (fallback_rating d).
Proof.
  intros Hl Hc Hd Hw. unfold rate, generate_deal_rating.
  rewrite priced_price, Hl, Hc, Hd. simpl.
  unfold no_rating in Hw.
  destruct (_make_request w) as [response w1]. simpl in Hw.
  destruct (has_text response) as [r| ]; [ | reflexivity].
  rewrite (Hw r eq_refl). reflexivity.
Qed.


(** On a number, one row of the table applies. *)
Lemma banding_row_exists (d : float) :
  F64.is_nan d = false ->
  F64.leb d (F64.of_Z (-30)) = true
  \/ (F64.ltb (F64.of_Z (-30)) d = true /\ F64.leb d (F64.of_Z (-20)) = true)
  \/ (F64.ltb (F64.of_Z (-20)) d = true /\ F64.leb d (F64.of_Z (-10)) = true)
  \/ (F64.ltb (F64.of_Z (-10)) d = true /\ F64.leb d (F64.of_Z (-5)) = true)
  \/ (F64.ltb (F64.of_Z (-5)) d = true /\ F64.leb d (F64.of_Z 0) = true)
  \/ (F64.ltb (F64.of_Z 0) d = true /\ F64.leb d (F64.of_Z 5) = true)
  \/ (F64.ltb (F64.of_Z 5) d = true /\ F64.leb d (F64.of_Z 10) = true)
  \/ (F64.ltb (F64.of_Z 10) d = true /\ F64.leb d (F64.of_Z 20) = true)
  \/ (F64.ltb (F64.of_Z 20) d = true /\ F64.leb d (F64.of_Z 30) = true)
  \/ F64.ltb (F64.of_Z 30) d = true.
Proof.
  intros Hd.
  assert (step : forall c, F64.is_nan c = false ->
            F64.leb d c = true \/ F64.ltb c d = true).
  { intros c Hc. destruct (F64.leb d c) eqn:E; [now left | right].
    now apply leb_false_ltb. }
  destruct (step (F64.of_Z (-30)) eq_refl) as [H|H1]; [now left | right].
  destruct (step (F64.of_Z (-20)) eq_refl) as [H|H2]; [now left | right].
  destruct (step (F64.of_Z (-10)) eq_refl) as [H|H3]; [now left | right].
  destruct (step (F64.of_Z (-5)) eq_refl) as [H|H4]; [now left | right].
  destruct (step (F64.of_Z 0) eq_refl) as [H|H5]; [now left | right].
  destruct (step (F64.of_Z 5) eq_refl) as [H|H6]; [now left | right].
  destruct (step (F64.of_Z 10) eq_refl) as [H|H7]; [now left | right].
  destruct (step (F64.of_Z 20) eq_refl) as [H|H8]; [now left | right].
  destruct (step (F64.of_Z 30) eq_refl) as [H|H9]; [now left | now right].
Qed.



Lemma no_rating_fresh_nil : no_rating (fresh []).
Proof. intros r H. discriminate H. Qed.


(** The guard of line 164: a falsy price ends the rater at once. *)
Lemma generate_deal_rating_guard (l : listing) (cp : pyval) (w : world) :
  truthy cp = false
  \/ truthy (convert_listing_price (default (VInt 0) (price l))) = false ->
  generate_deal_rating l cp w = (Ok 5, w).
Proof.
  intros [H|H]; unfold generate_deal_rating; rewrite H; simpl;
    [reflexivity | now rewrite orb_true_r].
Qed.

Lemma absent_or_zero_falsy (v : pyval) : absent_or_zero v -> truthy v = false.
Proof.
  destruct v as [ |z|f|s|l]; simpl; try contradiction; try reflexivity.
  - intros ->. reflexivity.
  - intros ->. reflexivity.
Qed.

Lemma parse_rating_range (r : string) (n : Z) :
  parse_rating r = Some n -> 1 <= n <= 10.
Proof.
  unfold parse_rating. destruct (Re.findall_rating r); [discriminate | ].
  intros [= <-]. lia.
Qed.

Lemma fallback_rating_range (d : float) : 1 <= fallback_rating d <= 10.
Proof.
  unfold fallback_rating.
  repeat match goal with
  | |- context [if ?b then _ else _] => destruct b
  end; lia.
Qed.

(** Once the price difference is computed, whatever the service does, the
    rater returns a rating from 1 to 10 after exactly one call. *)
Lemma rating_after_difference (l : listing) (cp : pyval) (d : float) (w : world) :
  truthy cp = true ->
  truthy (convert_listing_price (default (VInt 0) (price l))) = true ->
  price_difference (convert_listing_price (default (VInt 0) (price l))) cp = Ok d ->
  exists n, generate_deal_rating l cp w = (Ok n, snd (_make_request w))
            /\ 1 <= n <= 10.
Proof.
  intros Hc Hl Hd. unfold generate_deal_rating. rewrite Hc, Hl, Hd. simpl.
  destruct (_make_request w) as [response w1]. simpl.
  destruct (has_text response) as [r| ].
  - destruct (parse_rating r) as [n| ] eqn:E.
    + exists n. split; [reflexivity | eapply parse_rating_range; eauto].
    + eexists. split; [reflexivity | apply fallback_rating_range].
  - eexists. split; [reflexivity | apply fallback_rating_range].
Qed.

Lemma truthy_float_nonzero (g : float) :
  truthy (VFloat g) = true -> F64.eqb g F64.zero = false.
Proof. simpl. apply negb_true_iff. Qed.

(** A usable listing price, once converted and found truthy, and a truthy
    float market price always have a price difference. *)
Lemma price_difference_usable (lp : pyval) (g : float) :
  usable_listing_price lp ->
  truthy (convert_listing_price lp) = true ->
  truthy (VFloat g) = true ->
  exists d, price_difference (convert_listing_price lp) (VFloat g) = Ok d.
Proof.
  intros Hl Ht Hg. apply truthy_float_nonzero in Hg.
  unfold price_difference.
  destruct lp as [ |z|f|s|l]; simpl in *; try contradiction; try discriminate.
  - unfold F64.of_int. rewrite Hl. simpl.
    unfold float_div. rewrite Hg. simpl. eauto.
  - unfold float_div. rewrite Hg. simpl. eauto.
  - destruct (PyFloat.float_of_str s) as [f| ]; simpl in *; try discriminate.
    unfold float_div. rewrite Hg. simpl. eauto.
Qed.




(** C4, as amended. When the market price or the converted listing price is
    absent or zero ([None], a missing key, [0], [0.0], or a string [float]
    rejects or reads as zero), the rater returns exactly 5 and leaves the
    service untouched: no call is made and no banding is computed. *)
Theorem rate_default_on_absent_or_zero (l : listing) (cp : pyval) (w : world) :
  absent_or_zero cp
  \/ absent_or_zero (convert_listing_price (default (VInt 0) (price l))) ->
  generate_deal_rating l cp w = (Ok 5, w).
Proof.
  intros [H|H]; apply generate_deal_rating_guard;
    [left | right]; now apply absent_or_zero_falsy.
Qed.

Lemma rate_default_on_absent_or_zero_witness :
  generate_deal_rating (priced VNone) (VFloat (F64.of_Z 100)) (fresh [Some "9"])
  = (Ok 5, fresh [Some "9"]).
Proof.
  apply (rate_default_on_absent_or_zero (priced VNone) (VFloat (F64.of_Z 100))
           (fresh [Some "9"])).
  right. simpl. exact I.
Defined.

(** C4, as stated, fails: a negative listing price is truthy, passes the
    guard and is rated by the banding (here 10), not 5. *)
Lemma rate_negative_price_not_default :
  exists n, rate (VInt (-10)) (VFloat (F64.of_Z 100)) (fresh []) = Ok n /\ n <> 5.
Proof. exists 10. split; [vm_compute; reflexivity | lia]. Qed.

(** ** The GPU identifier *)

Lemma is_digit_decimal (c : ascii) : Py.is_digit c = true -> In c decimal_digits.
Proof.
  destruct c as [[] [] [] [] [] [] [] []]; vm_compute; intros H;
    try discriminate H; tauto.
Qed.

Lemma all_digits_Forall (s : string) :
  Py.all_chars Py.is_digit s = true ->
  Forall (fun c => In c decimal_digits) (list_ascii_of_string s).
Proof.
  induction s as [ |c r IH]; simpl; intros H; constructor;
    apply andb_true_iff in H; destruct H as [Hc Hr].
  - now apply is_digit_decimal.
  - now apply IH.
Qed.

Lemma valid_model_spec (model : string) : valid_model model = true -> spec_model model.
Proof.
  unfold valid_model, Py.isdigit, Py.len, spec_model.
  intros H. apply andb_true_iff in H. destruct H as [Hd Hl].
  apply andb_true_iff in Hd. destruct Hd as [_ Hd].
  split; [ | now apply all_digits_Forall].
  apply orb_true_iff in Hl. destruct Hl as [Hl|Hl]; apply Z.eqb_eq in Hl; lia.
Qed.

Lemma valid_brand_spec (brand : string) : valid_brand brand = true -> spec_brand brand.
Proof.
  unfold valid_brand, spec_brand. intros H.
  apply orb_true_iff in H. destruct H as [H|H];
    [apply orb_true_iff in H; destruct H as [H|H] | ];
    apply String.eqb_eq in H; auto.
Qed.

(** A keyword is returned for a response only after both validations. *)
Lemma parse_found_identity (r keyword : string) :
  parse_gpu_response r = Found keyword -> spec_identity keyword.
Proof.
  unfold parse_gpu_response.
  destruct (String.eqb _ "NONE"); [discriminate | ].
  destruct (Py.contains _ _); [ | discriminate].
  destruct (Py.split _ _) as [ |p0 [ |p1 [ |p2 ps]]]; try discriminate.
  destruct (valid_brand _) eqn:Hb; simpl; [ | discriminate].
  destruct (valid_model _) eqn:Hm; simpl; [ | discriminate].
  intros [= <-]. eexists. eexists. split; [reflexivity | ].
  split; [now apply valid_brand_spec | now apply valid_model_spec].
Qed.

(** The loop returns a keyword only when some response produced it. *)
Lemma attempt_loop_found (attempts : list nat) (w : world) (keyword : string) :
  fst (attempt_loop attempts w) = Some keyword ->
  exists r, parse_gpu_response r = Found keyword.
Proof.
  revert w. induction attempts as [ |a rest IH]; intros w; simpl.
  - discriminate.
  - destruct (_make_request w) as [response w1].
    destruct (has_text response) as [r| ].
    + destruct (parse_gpu_response r) as [k| | ] eqn:E; simpl.
      * intros [= <-]. now exists r.
      * discriminate.
      * apply IH.
    + apply IH.
Qed.



(** *** Brand synonyms *)

Lemma split_without_separator (sep : ascii) (s : string) :
  Py.contains sep s = false -> Py.split sep s = [s].
Proof.
  induction s as [ |c r IH]; simpl; [reflexivity | ].
  intros H. apply orb_false_iff in H. destruct H as [Hc Hr].
  rewrite Hc, (IH Hr). reflexivity.
Qed.

Lemma upper_char_comma (c : ascii) :
  Ascii.eqb (Py.upper_char c) "," = Ascii.eqb c ",".
Proof. destruct c as [[] [] [] [] [] [] [] []]; reflexivity. Qed.

Lemma upper_contains_comma (s : string) :
  Py.contains "," (Py.upper s) = Py.contains "," s.
Proof.
  unfold Py.upper. induction s as [ |c r IH]; simpl; [reflexivity | ].
  now rewrite upper_char_comma, IH.
Qed.

(** A line cut in two by its only comma is not the literal NONE. *)
Lemma pair_is_not_none (line p0 p1 : string) :
  Py.split "," line = [p0; p1] ->
  Py.contains "," line = true /\ String.eqb (Py.upper line) "NONE" = false.
Proof.
  intros Hs.
  assert (Hc : Py.contains "," line = true).
  { destruct (Py.contains "," line) eqn:E; [reflexivity | ].
    rewrite (split_without_separator _ _ E) in Hs. discriminate Hs. }
  split; [exact Hc | ].
  destruct (String.eqb (Py.upper line) "NONE") eqn:E; [ | reflexivity].
  apply String.eqb_eq in E.
  rewrite <- upper_contains_comma, E in Hc. discriminate Hc.
Qed.

Lemma normalize_brand_synonym (brand : string) :
  Py.startswith "QUADRO" brand = true \/ Py.startswith "GEFORCE" brand = true ->
  normalize_brand brand = "GTX".
Proof.
  unfold normalize_brand. intros [H|H].
  - rewrite H. now destruct (Py.startswith "GEFORCE" brand).
  - now rewrite H.
Qed.

(** C10. A brand token that, upper-cased and trimmed, starts with QUADRO is
    mapped to GTX before the validation, exactly as one starting with
    GEFORCE is: a response made of such a token, a comma and a valid model
    yields the keyword [GTX,model]. So the response [Quadro,2000] makes the
    identifier return [GTX,2000] and not [None]. *)
Theorem quadro_is_mapped_to_gtx :
  (forall brand : string,
      Py.startswith "QUADRO" brand = true \/ Py.startswith "GEFORCE" brand = true ->
      normalize_brand brand = "GTX")
  /\ (forall r p0 p1 : string,
      Py.split "," (Py.strip r) = [p0; p1] ->
      Py.startswith "QUADRO" (Py.strip (Py.upper p0)) = true
      \/ Py.startswith "GEFORCE" (Py.strip (Py.upper p0)) = true ->
      valid_model (Py.strip (Py.upper p1)) = true ->
      parse_gpu_response r = Found ("GTX," ++ Py.strip (Py.upper p1)))
  /\ (forall (text : string) (later : list (option string)),
      _extract_gpu_from_listing text (fresh (Some "Quadro,2000" :: later))
      = (Some "GTX,2000", {| pending := later; calls := 1; sleeps := 0 |})).
Proof.
  split; [exact normalize_brand_synonym | split].
  - intros r p0 p1 Hs Hb Hm. unfold parse_gpu_response.
    destruct (pair_is_not_none _ _ _ Hs) as [Hc Hn].
    rewrite Hn, Hc, Hs, (normalize_brand_synonym _ Hb), Hm. reflexivity.
  - intros text later. reflexivity.
Qed.

Lemma quadro_is_mapped_to_gtx_witness :
  parse_gpu_response " quadro rtx , 2000 " = Found "GTX,2000".
Proof.
  apply (proj1 (proj2 quadro_is_mapped_to_gtx) " quadro rtx , 2000 "
           "quadro rtx " " 2000").
  - reflexivity.
  - left. reflexivity.
  - reflexivity.
Defined.

(** *** The retry loop *)

(** Each attempt makes one call: between one and [length attempts] in all. *)
Lemma attempt_loop_calls (attempts : list nat) (w : world) :
  (calls w <= calls (snd (attempt_loop attempts w))
              <= calls w + length attempts)%nat
  /\ (attempts <> [] -> calls w < calls (snd (attempt_loop attempts w)))%nat.
Proof.
  revert w. induction attempts as [ |a rest IH]; intros w; simpl.
  - split; [lia | congruence].
  - assert (Hc : forall b : bool,
               calls (if b then sleep_1 (snd (_make_request w))
                      else snd (_make_request w)) = S (calls w)).
    { intros b. unfold _make_request. destruct (pending w), b; reflexivity. }
    destruct (_make_request w) as [response w1] eqn:E. simpl in Hc.
    pose proof (Hc false) as Hw1. simpl in Hw1.
    destruct (has_text response) as [r| ].
    + destruct (parse_gpu_response r); simpl.
      * split; [lia | intros _; lia].
      * split; [lia | intros _; lia].
      * destruct (IH w1) as [H1 _]. split; [lia | intros _; lia].
    + destruct (IH (if (a <? 2)%nat then sleep_1 w1 else w1)) as [H1 _].
      rewrite Hc in H1. split; [lia | intros _; lia].
Qed.

(** A sleep is taken only by an attempt numbered below 2. *)
Lemma attempt_loop_sleeps (attempts : list nat) (w : world) :
  (sleeps w <= sleeps (snd (attempt_loop attempts w))
               <= sleeps w + length (List.filter (fun a => a <? 2) attempts))%nat.
Proof.
  revert w. induction attempts as [ |a rest IH]; intros w; simpl.
  - lia.
  - assert (Hs : sleeps (snd (_make_request w)) = sleeps w).
    { unfold _make_request. destruct (pending w); reflexivity. }
    destruct (_make_request w) as [response w1]. simpl in Hs.
    destruct (has_text response) as [r| ].
    + destruct (parse_gpu_response r); simpl;
        destruct (a <? 2)%nat; simpl; try lia;
        specialize (IH w1); lia.
    + destruct (a <? 2)%nat; simpl.
      * specialize (IH (sleep_1 w1)). simpl in IH. lia.
      * specialize (IH w1). lia.
Qed.








(** ** De-duplication *)

Section Dedup.

Implicit Types (seen : gset string) (listings : list listing) (k : string).



Lemma remove_duplicates_sublist seen listings :
  remove_duplicates_from seen listings `sublist_of` listings.
Proof.
  revert seen. induction listings as [ |l rest IH]; intros seen; simpl;
    [constructor | ].
  destruct (negb (Py.is_empty (title_key l)) && bool_decide (title_key l ∉ seen));
    [apply sublist_skip | apply sublist_cons]; apply IH.
Qed.



Lemma filter_all {A : Type} (f : A -> bool) (l : list A) :
  Forall (fun x => f x = true) l -> List.filter f l = l.
Proof. induction 1 as [ |x l Hx _ IH]; simpl; [ | rewrite Hx, IH]; reflexivity. Qed.

Lemma filter_none {A : Type} (f : A -> bool) (l : list A) :
  Forall (fun x => f x = false) l -> List.filter f l = [].
Proof. induction 1 as [ |x l Hx _ IH]; simpl; [ | rewrite Hx, IH]; reflexivity. Qed.

(** Every listing a fetcher returns carries the fetcher's source. *)
Lemma fetched_source (src : string) (limit : nat) (items : list listing) :
  Forall (fun x => source x = src)
    (take limit (_remove_duplicates (map (with_source src) items))).
Proof.
  apply Forall_forall. intros x Hx.
  assert (Hin : x ∈ map (with_source src) items).
  { eapply elem_of_sublist; [ | apply remove_duplicates_sublist].
    eapply elem_of_sublist; [exact Hx | apply sublist_take]. }
  apply list_elem_of_In, in_map_iff in Hin. destruct Hin as [y [<- _]].
  reflexivity.
Qed.

Lemma fetch_vinted_source (found : option (list listing)) :
  Forall (fun x => source x = "vinted") (fetch_vinted_gpus 100 found).
Proof. destruct found; [apply fetched_source | constructor]. Qed.

Lemma fetch_leboncoin_source (found : option (list listing)) :
  Forall (fun x => source x = "leboncoin") (fetch_leboncoin_gpus 100 found).
Proof. destruct found; [apply fetched_source | constructor]. Qed.

(** The batch is the first ten Vinted listings followed by the first ten
    Leboncoin listings. *)
Lemma test_listings_parts (v l : option (list listing)) :
  test_listings v l
  = (take 10 (fetch_vinted_gpus 100 v) ++ take 10 (fetch_leboncoin_gpus 100 l))%list.
Proof.
  unfold test_listings. rewrite !List.filter_app.
  pose proof (fetch_vinted_source v) as Hv.
  pose proof (fetch_leboncoin_source l) as Hl.
  rewrite (filter_all (from_source "vinted") (fetch_vinted_gpus 100 v)),
          (filter_none (from_source "vinted") (fetch_leboncoin_gpus 100 l)),
          (filter_none (from_source "leboncoin") (fetch_vinted_gpus 100 v)),
          (filter_all (from_source "leboncoin") (fetch_leboncoin_gpus 100 l)).
  - now rewrite app_nil_r.
  - eapply Forall_impl; [exact Hl | ]. intros x Hx. unfold from_source.
    now rewrite Hx.
  - eapply Forall_impl; [exact Hv | ]. intros x Hx. unfold from_source.
    now rewrite Hx.
  - eapply Forall_impl; [exact Hl | ]. intros x Hx. unfold from_source.
    now rewrite Hx.
  - eapply Forall_impl; [exact Hv | ]. intros x Hx. unfold from_source.
    now rewrite Hx.
Qed.

End Dedup.

Lemma Forall_take {A : Type} (P : A -> Prop) (n : nat) (l : list A) :
  Forall P l -> Forall P (take n l).
Proof.
  intros H. apply Forall_forall. intros x Hx.
  rewrite Forall_forall in H. apply H.
  eapply elem_of_sublist; [exact Hx | apply sublist_take].
Qed.

Lemma batch_of_source (v l : option (list listing)) :
  List.filter (from_source "vinted") (test_listings v l)
  = take 10 (fetch_vinted_gpus 100 v)
  /\ List.filter (from_source "leboncoin") (test_listings v l)
     = take 10 (fetch_leboncoin_gpus 100 l).
Proof.
  rewrite test_listings_parts, !List.filter_app.
  pose proof (Forall_take _ 10 _ (fetch_vinted_source v)) as Hv.
  pose proof (Forall_take _ 10 _ (fetch_leboncoin_source l)) as Hl.
  rewrite (filter_all (from_source "vinted") (take 10 (fetch_vinted_gpus 100 v))),
          (filter_none (from_source "vinted") (take 10 (fetch_leboncoin_gpus 100 l))),
          (filter_none (from_source "leboncoin") (take 10 (fetch_vinted_gpus 100 v))),
          (filter_all (from_source "leboncoin") (take 10 (fetch_leboncoin_gpus 100 l))).
  - now rewrite app_nil_r.
  - eapply Forall_impl; [exact Hl | ]. intros x Hx. unfold from_source.
    now rewrite Hx.
  - eapply Forall_impl; [exact Hv | ]. intros x Hx. unfold from_source.
    now rewrite Hx.
  - eapply Forall_impl; [exact Hl | ]. intros x Hx. unfold from_source.
    now rewrite Hx.
  - eapply Forall_impl; [exact Hv | ]. intros x Hx. unfold from_source.
    now rewrite Hx.
Qed.







(** ** The market-price resolver *)







(** ** Prices read from strings *)

Section Numerals.

Import PyFloat.

Lemma numeral_char_facts (c : ascii) :
  numeral_char c = true ->
  is_c_space c = false /\ Ascii.eqb c "_" = false /\ Ascii.eqb c "," = false.
Proof.
  destruct c as [[] [] [] [] [] [] [] []]; vm_compute; intros H;
    try discriminate H; repeat split.
Qed.

Lemma digit_char_facts (c : ascii) :
  Py.is_digit c = true ->
  numeral_char c = true /\ Py.lower_char c = c
  /\ Ascii.eqb c "-" = false /\ Ascii.eqb c "+" = false
  /\ Ascii.eqb c "i" = false /\ Ascii.eqb c "n" = false
  /\ Ascii.eqb c "." = false.
Proof.
  destruct c as [[] [] [] [] [] [] [] []]; vm_compute; intros H;
    try discriminate H; repeat split.
Qed.

Lemma rstrip_c_numeral (s : string) :
  Py.all_chars numeral_char s = true -> rstrip_c s = s.
Proof.
  induction s as [ |c r IH]; simpl; [reflexivity | ].
  intros H. apply andb_true_iff in H. destruct H as [Hc Hr].
  rewrite (IH Hr). destruct (numeral_char_facts c Hc) as [-> _]. reflexivity.
Qed.

Lemma drop_underscores_numeral (s : string) (prev : bool) :
  Py.all_chars numeral_char s = true -> drop_underscores prev s = Some s.
Proof.
  revert prev. induction s as [ |c r IH]; intros prev; simpl; [reflexivity | ].
  intros H. apply andb_true_iff in H. destruct H as [Hc Hr].
  destruct (numeral_char_facts c Hc) as (_ & -> & _).
  now rewrite (IH _ Hr).
Qed.

Lemma all_chars_app (f : ascii -> bool) (a b : string) :
  Py.all_chars f (a ++ b) = Py.all_chars f a && Py.all_chars f b.
Proof.
  induction a as [ |c r IH]; simpl; [reflexivity | ].
  now rewrite IH, andb_assoc.
Qed.

Lemma digits_are_numeral (s : string) :
  Py.all_chars Py.is_digit s = true -> Py.all_chars numeral_char s = true.
Proof.
  induction s as [ |c r IH]; simpl; [reflexivity | ].
  intros H. apply andb_true_iff in H. destruct H as [Hc Hr].
  destruct (digit_char_facts c Hc) as [-> _]. now apply IH.
Qed.

(** [span] stops at the end of a run that is followed by a character
    outside the class, or by nothing. *)
Lemma span_run (f : ascii -> bool) (a rest : string) :
  Py.all_chars f a = true ->
  match rest with String c _ => f c = false | EmptyString => True end ->
  span f (a ++ rest) = (a, rest).
Proof.
  intros Ha Hrest. induction a as [ |c r IH]; simpl in *.
  - destruct rest as [ |c r]; simpl; [reflexivity | ]. now rewrite Hrest.
  - apply andb_true_iff in Ha. destruct Ha as [Hc Hr].
    now rewrite Hc, (IH Hr).
Qed.

Lemma span_all (f : ascii -> bool) (a : string) :
  Py.all_chars f a = true -> span f a = (a, EmptyString).
Proof.
  intros Ha. induction a as [ |c r IH]; simpl in *; [reflexivity | ].
  apply andb_true_iff in Ha. destruct Ha as [Hc Hr].
  now rewrite Hc, (IH Hr).
Qed.

(** What [span] returns: a run of the class, and the rest. *)
Lemma span_spec (f : ascii -> bool) (s a rest : string) :
  span f s = (a, rest) ->
  s = a ++ rest /\ Py.all_chars f a = true
  /\ match rest with String c _ => f c = false | EmptyString => True end.
Proof.
  revert a rest. induction s as [ |c r IH]; intros a rest; simpl.
  - intros [= <- <-]. auto.
  - destruct (f c) eqn:Hc.
    + destruct (span f r) as [a' b'] eqn:E. intros [= <- <-].
      destruct (IH _ _ eq_refl) as (-> & Ha & Hb).
      simpl. rewrite Hc. auto.
    + intros [= <- <-]. simpl. auto.
Qed.

(** [float] accepts every plain numeral, with the value of its digits. *)
Lemma float_of_plain_digits (a : string) :
  Py.isdigit a = true ->
  float_of_str a
  = Some (decimal (Py.int_of_digits (a ++ EmptyString)) (0 - Py.len EmptyString)).
Proof.
  unfold Py.isdigit. intros H. apply andb_true_iff in H. destruct H as [Hne Ha].
  destruct a as [ |c r]; [discriminate | clear Hne].
  pose proof (digits_are_numeral _ Ha) as Hn.
  unfold float_of_str.
  assert (Hl : lstrip_c (String c r) = String c r).
  { simpl in *. apply andb_true_iff in Hn. destruct Hn as [Hc _].
    now destruct (numeral_char_facts c Hc) as [-> _]. }
  rewrite Hl, (rstrip_c_numeral _ Hn), (drop_underscores_numeral _ _ Hn).
  simpl in Ha. apply andb_true_iff in Ha. destruct Ha as [Hc Hr].
  destruct (digit_char_facts c Hc) as (_ & Hlow & Hm & Hp & Hi & Hnn & _).
  unfold take_sign. rewrite Hm, Hp.
  assert (Hinf : String.eqb (Py.lower (String c r)) "inf" = false
                 /\ String.eqb (Py.lower (String c r)) "infinity" = false
                 /\ String.eqb (Py.lower (String c r)) "nan" = false).
  { unfold Py.lower. simpl. rewrite Hlow, Hi, Hnn. auto. }
  destruct Hinf as (-> & -> & ->). simpl orb. cbv iota.
  unfold parse_number.
  rewrite (span_all Py.is_digit (String c r)) by (simpl; now rewrite Hc, Hr).
  reflexivity.
Qed.

Lemma float_of_plain_fraction (a b : string) :
  Py.isdigit a = true -> Py.all_chars Py.is_digit b = true ->
  float_of_str (a ++ "." ++ b)
  = Some (decimal (Py.int_of_digits (a ++ b)) (0 - Py.len b)).
Proof.
  unfold Py.isdigit. intros H Hb. apply andb_true_iff in H.
  destruct H as [Hne Ha].
  destruct a as [ |c r]; [discriminate | clear Hne].
  assert (Hn : Py.all_chars numeral_char (String c r ++ "." ++ b) = true).
  { rewrite all_chars_app, (digits_are_numeral _ Ha).
    change ("." ++ b) with (String "." b). cbn [Py.all_chars andb].
    change (numeral_char ".") with true. cbn [andb].
    now apply digits_are_numeral. }
  unfold float_of_str.
  assert (Hl : lstrip_c (String c r ++ "." ++ b) = String c r ++ "." ++ b).
  { simpl in *. apply andb_true_iff in Hn. destruct Hn as [Hc _].
    now destruct (numeral_char_facts c Hc) as [-> _]. }
  rewrite Hl, (rstrip_c_numeral _ Hn), (drop_underscores_numeral _ _ Hn).
  pose proof Ha as Ha'.
  simpl in Ha. apply andb_true_iff in Ha. destruct Ha as [Hc Hr].
  destruct (digit_char_facts c Hc) as (_ & Hlow & Hm & Hp & Hi & Hnn & _).
  change (String c r ++ "." ++ b) with (String c (r ++ "." ++ b)).
  unfold take_sign. rewrite Hm, Hp.
  assert (Hinf : forall t, String.eqb (Py.lower (String c t)) "inf" = false
                 /\ String.eqb (Py.lower (String c t)) "infinity" = false
                 /\ String.eqb (Py.lower (String c t)) "nan" = false).
  { intros t. unfold Py.lower. simpl. rewrite Hlow, Hi, Hnn. auto. }
  destruct (Hinf (r ++ "." ++ b)) as (-> & -> & ->). simpl orb. cbv iota.
  unfold parse_number.
  change (String c (r ++ "." ++ b)) with (String c r ++ String "." b).
  rewrite (span_run Py.is_digit (String c r) (String "." b) Ha' eq_refl).
  rewrite Ascii.eqb_refl, (span_all _ _ Hb).
  reflexivity.
Qed.

Lemma float_of_plain_numeral (n : string) :
  plain_numeral n -> exists f, float_of_str n = Some f.
Proof.
  intros (a & b & Ha & Hb & [-> | ->]).
  - rewrite (float_of_plain_digits _ Ha). eauto.
  - rewrite (float_of_plain_fraction _ _ Ha Hb). eauto.
Qed.

End Numerals.

Section ExtractPrice.

Import PyFloat.

Lemma replace_no_comma (s : string) :
  Py.contains "," (Py.replace "," "." s) = false.
Proof.
  unfold Py.replace. induction s as [ |c r IH]; simpl; [reflexivity | ].
  rewrite IH. destruct (Ascii.eqb c ",") eqn:E; [reflexivity | ].
  now rewrite E.
Qed.

Lemma contains_app (sep : ascii) (a b : string) :
  Py.contains sep (a ++ b) = Py.contains sep a || Py.contains sep b.
Proof.
  induction a as [ |c r IH]; simpl; [reflexivity | ].
  now rewrite IH, orb_assoc.
Qed.

(** Without commas the class [[\d,]] holds digits only. *)
Lemma class_run_digits (a : string) :
  Py.contains "," a = false ->
  Py.all_chars Re.is_digit_or_comma a = true ->
  Py.all_chars Py.is_digit a = true.
Proof.
  induction a as [ |c r IH]; simpl; [reflexivity | ].
  intros Hn Ha. apply orb_false_iff in Hn. destruct Hn as [Hc Hr].
  apply andb_true_iff in Ha. destruct Ha as [Hcl Ha].
  unfold Re.is_digit_or_comma in Hcl. rewrite Hc, orb_false_r in Hcl.
  rewrite Hcl. now apply IH.
Qed.

Lemma match_price_here_numeral (c : ascii) (r : string) :
  Py.contains "," (String c r) = false ->
  Re.is_digit_or_comma c = true ->
  plain_numeral (Re.match_price_here (String c r)).
Proof.
  intros Hn Hc. unfold Re.match_price_here.
  destruct (span Re.is_digit_or_comma (String c r)) as [a r1] eqn:E.
  destruct (span_spec _ _ _ _ E) as (Hs & Ha & _).
  assert (Hne : Py.is_empty a = false).
  { simpl in E. rewrite Hc in E.
    destruct (span Re.is_digit_or_comma r). now injection E as <- _. }
  rewrite Hs, contains_app in Hn. apply orb_false_iff in Hn.
  destruct Hn as [Hna _].
  pose proof (class_run_digits _ Hna Ha) as Hd.
  assert (Hda : Py.isdigit a = true)
    by (unfold Py.isdigit; now rewrite Hne, Hd).
  destruct r1 as [ |d r2].
  - exists a, EmptyString. auto.
  - destruct (Ascii.eqb d ".").
    + destruct (span Py.is_digit r2) as [b rest] eqn:Eb.
      destruct (span_spec _ _ _ _ Eb) as (_ & Hb & _).
      exists a, b. auto.
    + exists a, EmptyString. auto.
Qed.

Lemma search_price_numeral (s n : string) :
  Py.contains "," s = false ->
  Re.search_price s = Some n -> plain_numeral n.
Proof.
  induction s as [ |c r IH]; simpl; [discriminate | ].
  intros Hn. destruct (Re.is_digit_or_comma c) eqn:Hc.
  - intros [= <-]. now apply match_price_here_numeral.
  - apply IH. apply orb_false_iff in Hn. apply Hn.
Qed.





Example extract_price_decimal_comma :
  _extract_price (VStr "249,90 EUR") = Ok (F64.div (F64.of_Z 2499) (F64.of_Z 10)).
Proof. vm_compute. reflexivity. Qed.

Example extract_price_thousands :
  _extract_price (VStr "1,299.99 EUR") = Ok (F64.div (F64.of_Z 1299) (F64.of_Z 1000)).
Proof. vm_compute. reflexivity. Qed.

Example extract_price_list :
  _extract_price (VList [VList [VInt 250]; VStr "x"]) = Ok (F64.of_Z 250).
Proof. vm_compute. reflexivity. Qed.

End ExtractPrice.

(** ** The final sort *)

Section FinalSort.

Implicit Types (d : scored_deal) (ds : list scored_deal).

Lemma insert_by_rating_Forall (P : scored_deal -> Prop) d ds :
  P d -> Forall P ds -> Forall P (insert_by_rating d ds).
Proof.
  intros Hd. induction 1 as [ |y r Hy Hr IH]; simpl.
  - repeat constructor. exact Hd.
  - destruct (rating d <? rating y); repeat constructor; auto.
Qed.

Lemma insert_by_rating_descending d ds :
  descending ds -> descending (insert_by_rating d ds).
Proof.
  unfold descending. induction 1 as [ |y r Hs IH Hy]; simpl.
  - repeat constructor.
  - destruct (rating d <? rating y) eqn:E.
    + apply Z.ltb_lt in E. constructor; [exact IH | ].
      apply insert_by_rating_Forall; [lia | exact Hy].
    + apply Z.ltb_ge in E. constructor; [now constructor | ].
      constructor; [exact E | ].
      eapply Forall_impl; [exact Hy | ]. simpl. intros z Hz. lia.
Qed.

Lemma insert_by_rating_perm d ds : Permutation (insert_by_rating d ds) (d :: ds).
Proof.
  induction ds as [ |y r IH]; simpl; [reflexivity | ].
  destruct (rating d <? rating y); [ | reflexivity].
  rewrite IH. apply perm_swap.
Qed.

(** Inserting a deal leaves the deals of every other rating in place and
    puts it in front of those of its own. *)
Lemma with_rating_insert (r : Z) d ds :
  with_rating r (insert_by_rating d ds)
  = if rating d =? r then d :: with_rating r ds else with_rating r ds.
Proof.
  unfold with_rating. induction ds as [ |y rest IH]; simpl; [reflexivity | ].
  destruct (rating d <? rating y) eqn:E; simpl.
  - rewrite IH. apply Z.ltb_lt in E.
    destruct (rating d =? r) eqn:Ed; [ | reflexivity].
    apply Z.eqb_eq in Ed.
    replace (rating y =? r) with false by (symmetry; apply Z.eqb_neq; lia).
    reflexivity.
  - reflexivity.
Qed.

Lemma sort_descending ds : descending (sort_by_rating_desc ds).
Proof.
  induction ds as [ |d r IH]; simpl; [constructor | ].
  now apply insert_by_rating_descending.
Qed.

Lemma sort_perm ds : Permutation (sort_by_rating_desc ds) ds.
Proof.
  induction ds as [ |d r IH]; simpl; [reflexivity | ].
  rewrite insert_by_rating_perm. now constructor.
Qed.

Lemma sort_stable (r : Z) ds :
  with_rating r (sort_by_rating_desc ds) = with_rating r ds.
Proof.
  induction ds as [ |d rest IH]; simpl; [reflexivity | ].
  rewrite with_rating_insert, IH. unfold with_rating. simpl.
  now destruct (rating d =? r).
Qed.

Lemma with_rating_In (r : Z) d ds : In d (with_rating r ds) -> In d ds /\ rating d = r.
Proof.
  unfold with_rating. intros H. apply filter_In in H. destruct H as [H E].
  apply Z.eqb_eq in E. auto.
Qed.

Lemma descending_head d ds (x : scored_deal) :
  descending (d :: ds) -> In x (d :: ds) -> rating x <= rating d.
Proof.
  unfold descending. intros H Hx. apply StronglySorted_inv in H.
  destruct H as [_ H]. destruct Hx as [<- | Hx]; [lia | ].
  rewrite Forall_forall in H. apply H. now apply list_elem_of_In.
Qed.

(** Two descending lists that hold, for every rating, the same deals in
    the same order are one list: a stable descending sort has one result. *)
Lemma stable_descending_unique (a b : list scored_deal) :
  descending a -> descending b ->
  (forall r : Z, with_rating r a = with_rating r b) ->
  a = b.
Proof.
  revert b. induction a as [ |x a' IH]; intros b Ha Hb H.
  - destruct b as [ |y b']; [reflexivity | ].
    specialize (H (rating y)). unfold with_rating in H. simpl in H.
    rewrite Z.eqb_refl in H. discriminate H.
  - destruct b as [ |y b'].
    { specialize (H (rating x)). unfold with_rating in H. simpl in H.
      rewrite Z.eqb_refl in H. discriminate H. }
    assert (Hxy : rating x = rating y).
    { assert (Hx : In x (y :: b')).
      { apply (with_rating_In (rating x)). rewrite <- H.
        unfold with_rating. simpl. rewrite Z.eqb_refl. now left. }
      assert (Hy : In y (x :: a')).
      { apply (with_rating_In (rating y)). rewrite H.
        unfold with_rating. simpl. rewrite Z.eqb_refl. now left. }
      pose proof (descending_head _ _ _ Hb Hx).
      pose proof (descending_head _ _ _ Ha Hy). lia. }
    assert (Hhead : x = y /\ with_rating (rating x) a' = with_rating (rating x) b').
    { specialize (H (rating x)). unfold with_rating in H |- *. simpl in H.
      rewrite <- Hxy, Z.eqb_refl in H. injection H as H1 H2. auto. }
    destruct Hhead as [<- Hsame]. f_equal.
    apply IH.
    + unfold descending in *. now apply StronglySorted_inv in Ha.
    + unfold descending in *. now apply StronglySorted_inv in Hb.
    + intros r. destruct (Z.eq_dec r (rating x)) as [-> | Hr]; [exact Hsame | ].
      specialize (H r). unfold with_rating in H |- *. simpl in H.
      replace (rating x =? r) with false in H
        by (symmetry; apply Z.eqb_neq; congruence).
      exact H.
Qed.

(** What a run returns is the sorted list of the per-listing results. *)
Lemma process_listings_sorted (v l : option (list listing))
    (lookup : string -> option (list market_item)) (w : world)
    (out : list scored_deal) :
  fst (process_listings v l lookup w) = Ok out ->
  exists results,
    fst (process_each (test_listings v l) lookup w) = Ok results
    /\ out = sort_by_rating_desc results.
Proof.
  unfold process_listings.
  destruct (process_each (test_listings v l) lookup w) as [[results|e] w1];
    simpl; [ | discriminate].
  intros [= <-]. now exists results.
Qed.

(** C9. The output of a run is the list of its scored deals sorted by
    rating, highest first, and deals with equal ratings keep the order they
    had before the sort; no other list is both descending and in that order
    within each rating. Deals rated 5, 8, 5 come out as the 8, the first 5,
    the second 5. *)
Theorem final_sort_descending_stable :
  (forall ds : list scored_deal,
      descending (sort_by_rating_desc ds)
      /\ Permutation (sort_by_rating_desc ds) ds
      /\ (forall r : Z, with_rating r (sort_by_rating_desc ds) = with_rating r ds)
      /\ (forall out : list scored_deal,
            descending out ->
            (forall r : Z, with_rating r out = with_rating r ds) ->
            out = sort_by_rating_desc ds))
  /\ (forall (v l : option (list listing))
             (lookup : string -> option (list market_item)) (w : world)
             (out : list scored_deal),
      fst (process_listings v l lookup w) = Ok out ->
      exists results,
        fst (process_each (test_listings v l) lookup w) = Ok results
        /\ out = sort_by_rating_desc results
        /\ descending out
        /\ forall r : Z, with_rating r out = with_rating r results)
  /\ (forall a b c : scored_deal,
      rating a = 5 -> rating b = 8 -> rating c = 5 ->
      sort_by_rating_desc [a; b; c] = [b; a; c]).
Proof.
  split; [ | split].
  - intros ds. split; [apply sort_descending | split; [ | split]].
    + apply sort_perm.
    + intros r. apply sort_stable.
    + intros out Hd Hs. apply stable_descending_unique;
        [exact Hd | apply sort_descending | ].
      intros r. now rewrite Hs, sort_stable.
  - intros v l lookup w out H.
    destruct (process_listings_sorted _ _ _ _ _ H) as [results [Hr ->]].
    exists results. split; [exact Hr | split; [reflexivity | split]].
    + apply sort_descending.
    + intros r. apply sort_stable.
  - intros a b c Ha Hb Hc. simpl.
    repeat (rewrite ?Ha, ?Hb, ?Hc; simpl). reflexivity.
Qed.

Lemma final_sort_descending_stable_witness :
  sort_by_rating_desc
    [deal_titled "first" 5; deal_titled "second" 8; deal_titled "third" 5]
  = [deal_titled "second" 8; deal_titled "first" 5; deal_titled "third" 5].
Proof.
  apply (proj2 (proj2 final_sort_descending_stable)); reflexivity.
Defined.

End FinalSort.

(** ** A whole run *)

(** The same card on both marketplaces, the service naming the card, then
    choosing the first market entry (250), then failing: both listings are
    kept, rated by the banding (180 against 250 is 9, 175 against 250 is 10)
    and sorted. *)
Example process_listings_run :
  (let! ds := fst (process_listings (Some [example_vinted_ad])
                     (Some [example_leboncoin_ad])
                     (fun _ => Some example_items)
                     (fresh [Some "RTX,3070"; Some "1"; None;
                             None; Some "rtx, 3070"; Some "none of them"; Some "?"]))
   in Ok (map (fun d => (source (deal_listing d), rating d)) ds))
  = Ok [("leboncoin", 10); ("vinted", 9)].
Proof. vm_compute. reflexivity. Qed.

(** * The rest of the pipeline *)

(** ** Keywords of a batch: [extract_gpu_keywords] *)

Section Keywords.

Lemma four_digits_model (s m : string) :
  ReGpu.four_digits s = Some m -> spec_model_4 m.
Proof.
  unfold ReGpu.four_digits.
  destruct s as [ |a [ |b [ |c [ |d r]]]]; try discriminate.
  destruct (Py.is_digit a) eqn:Ha; [ | discriminate].
  destruct (Py.is_digit b) eqn:Hb; [ | discriminate].
  destruct (Py.is_digit c) eqn:Hc; [ | discriminate].
  destruct (Py.is_digit d) eqn:Hd; [ | discriminate].
  simpl. intros [= <-]. split; [reflexivity | ].
  cbn [list_ascii_of_string].
  repeat (apply Forall_cons_2; [now apply is_digit_decimal | ]). apply Forall_nil_2.
Qed.











End Keywords.

Section KeywordCalls.

Lemma lstrip_all_space (s : string) :
  Py.all_chars Py.is_space s = true -> Py.lstrip s = EmptyString.
Proof.
  induction s as [ |c r IH]; simpl; [reflexivity | ].
  intros H. apply andb_true_iff in H. destruct H as [Hc Hr].
  rewrite Hc. now apply IH.
Qed.

Lemma blank_combined_text (l : listing) :
  blank_listing l -> combined_text l = EmptyString.
Proof.
  intros [Ht Hd]. unfold combined_text, Py.strip.
  rewrite lstrip_all_space; [reflexivity | ].
  rewrite all_chars_app, Ht. simpl. exact Hd.
Qed.

Lemma blank_titles_descriptions (listings : list listing) :
  Forall blank_listing listings ->
  List.filter (fun t => negb (Py.is_empty t)) (map combined_text listings) = [].
Proof.
  induction 1 as [ |l r Hl _ IH]; simpl; [reflexivity | ].
  now rewrite (blank_combined_text _ Hl).
Qed.

(** X2. [extract_gpu_keywords] reads the first 50 listings only and makes
    at most one completion call; when none of those listings has text it
    makes no call and returns no keyword, and when the call fails or answers
    nothing it returns no keyword either. *)
Theorem extract_gpu_keywords_calls :
  (forall (listings : list listing) (w : world),
      extract_gpu_keywords listings w = extract_gpu_keywords (take 50 listings) w)
  /\ (forall (listings : list listing) (w : world),
      (calls w <= calls (snd (extract_gpu_keywords listings w)) <= calls w + 1)%nat)
  /\ (forall (listings : list listing) (w : world),
      Forall blank_listing (take 50 listings) ->
      extract_gpu_keywords listings w = ([], w))
  /\ (forall (listings : list listing) (w : world),
      has_text (fst (_make_request w)) = None ->
      fst (extract_gpu_keywords listings w) = []).
Proof.
  split; [ | split; [ | split]].
  - intros listings w. unfold extract_gpu_keywords, titles_descriptions.
    now rewrite take_take, Nat.min_id.
  - intros listings w. unfold extract_gpu_keywords.
    destruct (titles_descriptions listings); simpl; [lia | ].
    assert (Hc : calls (snd (_make_request w)) = S (calls w))
      by (unfold _make_request; destruct (pending w); reflexivity).
    destruct (_make_request w) as [response w1]. simpl in Hc.
    destruct (has_text response); simpl; lia.
  - intros listings w H. unfold extract_gpu_keywords, titles_descriptions.
    now rewrite (blank_titles_descriptions _ H).
  - intros listings w H. unfold extract_gpu_keywords.
    destruct (titles_descriptions listings); [reflexivity | ].
    destruct (_make_request w) as [response w1]. simpl in H. now rewrite H.
Qed.

Lemma extract_gpu_keywords_calls_witness :
  extract_gpu_keywords
    [ {| source := "vinted"; title := "  "; description := EmptyString;
         url := "u"; price := None; image_url := EmptyString;
         user := EmptyString; created_at := EmptyString |} ]
    (fresh [Some "RTX,3070"])
  = ([], fresh [Some "RTX,3070"]).
Proof.
  apply (proj1 (proj2 (proj2 extract_gpu_keywords_calls))).
  repeat constructor.
Defined.

End KeywordCalls.

(** ** Keywords are fixed points of the two parsers *)

Section Canonical.

Lemma digit_char_plain (c : ascii) :
  Py.is_digit c = true ->
  Py.upper_char c = c /\ Py.is_space c = false /\ Ascii.eqb c "," = false
  /\ Ascii.eqb "R" c = false /\ Ascii.eqb "G" c = false.
Proof.
  destruct c as [[] [] [] [] [] [] [] []]; vm_compute; intros H;
    try discriminate H; repeat split.
Qed.

Lemma decimal_is_digit (c : ascii) : In c decimal_digits -> Py.is_digit c = true.
Proof.
  unfold decimal_digits. simpl.
  intros H. repeat (destruct H as [<- | H]; [reflexivity | ]). contradiction.
Qed.

Lemma spec_model_valid (m : string) : spec_model m -> valid_model m = true.
Proof.
  intros [Hl Hd]. unfold valid_model, Py.isdigit, Py.len.
  assert (Ha : Py.all_chars Py.is_digit m = true).
  { clear Hl. induction m as [ |c r IH]; simpl in *; [reflexivity | ].
    apply Forall_cons in Hd. destruct Hd as [Hc Hr].
    now rewrite (decimal_is_digit _ Hc), IH. }
  rewrite Ha. destruct m as [ |c r]; [simpl in Hl; lia | ].
  destruct Hl as [Hl | Hl]; rewrite Hl; reflexivity.
Qed.

Lemma valid_model_digits (m : string) :
  valid_model m = true -> Py.all_chars Py.is_digit m = true.
Proof.
  unfold valid_model, Py.isdigit. intros H.
  apply andb_true_iff in H. destruct H as [H _].
  apply andb_true_iff in H. apply H.
Qed.

Lemma upper_digits (m : string) :
  Py.all_chars Py.is_digit m = true -> Py.upper m = m.
Proof.
  unfold Py.upper. induction m as [ |c r IH]; simpl; [reflexivity | ].
  intros H. apply andb_true_iff in H. destruct H as [Hc Hr].
  destruct (digit_char_plain c Hc) as [-> _]. now rewrite IH.
Qed.

Lemma rstrip_digits (m : string) :
  Py.all_chars Py.is_digit m = true -> Py.rstrip m = m.
Proof.
  induction m as [ |c r IH]; simpl; [reflexivity | ].
  intros H. apply andb_true_iff in H. destruct H as [Hc Hr].
  destruct (digit_char_plain c Hc) as (_ & -> & _). now rewrite IH.
Qed.

Lemma strip_digits (m : string) :
  Py.all_chars Py.is_digit m = true -> Py.strip m = m.
Proof.
  intros H. unfold Py.strip.
  assert (Hl : Py.lstrip m = m).
  { destruct m as [ |c r]; [reflexivity | ]. simpl in *.
    apply andb_true_iff in H. destruct H as [Hc _].
    now destruct (digit_char_plain c Hc) as (_ & -> & _). }
  rewrite Hl. now apply rstrip_digits.
Qed.

Lemma digits_no_comma (m : string) :
  Py.all_chars Py.is_digit m = true -> Py.contains "," m = false.
Proof.
  induction m as [ |c r IH]; simpl; [reflexivity | ].
  intros H. apply andb_true_iff in H. destruct H as [Hc Hr].
  destruct (digit_char_plain c Hc) as (_ & _ & -> & _). now apply IH.
Qed.

(** A string of digits names no brand, so the expression finds nothing. *)
Lemma search_digits (m : string) :
  Py.all_chars Py.is_digit m = true -> ReGpu.search m = None.
Proof.
  induction m as [ |c r IH]; [reflexivity | ].
  intros H. simpl in H. apply andb_true_iff in H. destruct H as [Hc Hr].
  cbn [ReGpu.search].
  destruct (digit_char_plain c Hc) as (_ & _ & _ & HR & HG).
  assert (E : ReGpu.match_here (String c r) = None).
  { unfold ReGpu.match_here, ReGpu.brand_here. cbn [ReGpu.after_prefix].
    now rewrite HR, HG. }
  rewrite E. now apply IH.
Qed.

Lemma map_chars_app (f : ascii -> ascii) (a b : string) :
  Py.map_chars f (a ++ b) = Py.map_chars f a ++ Py.map_chars f b.
Proof. induction a as [ |c r IH]; simpl; [reflexivity | now rewrite IH]. Qed.

Lemma rstrip_clean (s : string) :
  Py.all_chars (fun c => negb (Py.is_space c)) s = true -> Py.rstrip s = s.
Proof.
  induction s as [ |c r IH]; simpl; [reflexivity | ].
  intros H. apply andb_true_iff in H. destruct H as [Hc Hr].
  apply negb_true_iff in Hc. now rewrite Hc, IH.
Qed.

Lemma strip_clean (s : string) :
  Py.all_chars (fun c => negb (Py.is_space c)) s = true -> Py.strip s = s.
Proof.
  intros H. unfold Py.strip.
  assert (Hl : Py.lstrip s = s).
  { destruct s as [ |c r]; [reflexivity | ]. simpl in *.
    apply andb_true_iff in H. destruct H as [Hc _].
    apply negb_true_iff in Hc. now rewrite Hc. }
  rewrite Hl. now apply rstrip_clean.
Qed.

Lemma digits_clean (m : string) :
  Py.all_chars Py.is_digit m = true ->
  Py.all_chars (fun c => negb (Py.is_space c)) m = true.
Proof.
  induction m as [ |c r IH]; simpl; [reflexivity | ].
  intros H. apply andb_true_iff in H. destruct H as [Hc Hr].
  destruct (digit_char_plain c Hc) as (_ & -> & _). now apply IH.
Qed.

Lemma split_at_comma (a b : string) :
  Py.contains "," a = false ->
  Py.split "," (a ++ "," ++ b) = a :: Py.split "," b.
Proof.
  induction a as [ |c r IH]; simpl; [reflexivity | ].
  intros H. apply orb_false_iff in H. destruct H as [Hc Hr].
  now rewrite Hc, (IH Hr).
Qed.

(** What makes a brand token come through both parsers unchanged. *)
Lemma canonical_keyword_from (b m : string) :
  Py.all_chars (fun c => negb (Py.is_space c)) b = true ->
  Py.upper b = b ->
  Py.contains "," b = false ->
  (forall t, String.eqb (b ++ t) "NONE" = false) ->
  (forall t, Py.startswith "#" (b ++ t) = false) ->
  (forall t, Py.is_empty (b ++ t) = false) ->
  normalize_brand b = b ->
  valid_brand b = true ->
  valid_model m = true ->
  parse_gpu_response (b ++ "," ++ m) = Found (b ++ "," ++ m)
  /\ keyword_of_line (b ++ "," ++ m) = Some (b ++ "," ++ m).
Proof.
  intros Hclean Hup Hcomma Hnone Hhash Hempty Hnorm Hvb Hm.
  pose proof (valid_model_digits _ Hm) as Hd.
  assert (Hstrip : Py.strip (b ++ "," ++ m) = b ++ "," ++ m).
  { apply strip_clean. rewrite all_chars_app, Hclean.
    change ("," ++ m) with (String "," m). cbn [Py.all_chars andb].
    change (negb (Py.is_space ",")) with true. cbn [andb].
    now apply digits_clean. }
  assert (Hupper : Py.upper (b ++ "," ++ m) = b ++ "," ++ m).
  { pose proof (upper_digits _ Hd) as Hum.
    unfold Py.upper in *. rewrite map_chars_app, Hup.
    change ("," ++ m) with (String "," m). cbn [Py.map_chars].
    change (Py.upper_char ",") with ","%char.
    now rewrite Hum. }
  assert (Hcont : Py.contains "," (b ++ "," ++ m) = true).
  { rewrite contains_app. change ("," ++ m) with (String "," m).
    cbn [Py.contains]. rewrite Ascii.eqb_refl. now rewrite orb_true_r. }
  assert (Hsplit : Py.split "," (b ++ "," ++ m) = [b; m]).
  { rewrite (split_at_comma _ _ Hcomma).
    now rewrite (split_without_separator _ _ (digits_no_comma _ Hd)). }
  assert (Hbs : Py.strip (Py.upper b) = b)
    by (rewrite Hup; now apply strip_clean).
  assert (Hms : Py.strip (Py.upper m) = m)
    by (rewrite (upper_digits _ Hd); now apply strip_digits).
  split.
  - unfold parse_gpu_response.
    rewrite Hstrip, Hupper, Hnone, Hcont, Hsplit, Hbs, Hms, Hnorm, Hvb, Hm.
    reflexivity.
  - unfold keyword_of_line.
    rewrite Hstrip, Hempty, Hcont, Hhash, Hsplit, Hbs, Hms.
    rewrite (search_digits _ Hd), Hvb, Hm. reflexivity.
Qed.

Lemma canonical_keyword (b m : string) :
  spec_brand b -> valid_model m = true ->
  parse_gpu_response (b ++ "," ++ m) = Found (b ++ "," ++ m)
  /\ keyword_of_line (b ++ "," ++ m) = Some (b ++ "," ++ m).
Proof.
  intros Hb Hm.
  destruct Hb as [-> | [-> | ->]]; apply canonical_keyword_from;
    try reflexivity; try exact Hm; intros t; reflexivity.
Qed.

(** X3. A keyword either parser returns ([BRAND,MODEL] with a brand of the
    closed set and a model of 3 or 4 digits) is read as itself when it comes
    back as a response: by the identifier's parser and by the line parser of
    [extract_gpu_keywords]. *)
Theorem keyword_round_trip (k : string) :
  spec_identity k ->
  parse_gpu_response k = Found k /\ keyword_of_line k = Some k.
Proof.
  intros (b & m & -> & Hb & Hm).
  apply canonical_keyword; [exact Hb | now apply spec_model_valid].
Qed.

Lemma keyword_round_trip_witness :
  parse_gpu_response "RX,570" = Found "RX,570"
  /\ keyword_of_line "RX,570" = Some "RX,570".
Proof.
  apply (keyword_round_trip "RX,570").
  exists "RX", "570". split; [reflexivity | split].
  - right. right. reflexivity.
  - split; [left; reflexivity | ].
    repeat (apply Forall_cons_2; [simpl; tauto | ]). apply Forall_nil_2.
Defined.

End Canonical.

(** ** The pattern fallback: [_extract_keywords_fallback] *)

Section Fallback.

Lemma findall_from_models (words : list string) (s : string) :
  forall skip : nat, Forall spec_model_4 (findall_from words skip s).
Proof.
  induction s as [ |c r IH]; intros skip; simpl; [constructor | ].
  destruct skip as [ |k]; [ | apply IH].
  destruct (match_pattern_here words (String c r)) as [[g n]| ] eqn:E;
    [ | apply IH].
  constructor; [ | apply IH].
  unfold match_pattern_here in E.
  destruct (match_words words (String c r)) as [rest| ]; [ | discriminate].
  destruct (ReGpu.four_digits rest) as [g'| ] eqn:E4; [ | discriminate].
  injection E as <- _. eapply four_digits_model; eauto.
Qed.

Lemma brand_tag_brand (p : gpu_pattern) (b : string) :
  brand_tag p = Some b -> spec_brand b.
Proof.
  unfold brand_tag, spec_brand.
  destruct (substring "RTX" (pattern_text p)); [intros [= <-]; auto | ].
  destruct (substring "GTX" (pattern_text p)); [intros [= <-]; auto | ].
  destruct (substring "RX" (pattern_text p)); [intros [= <-]; auto | ].
  discriminate.
Qed.

Lemma pattern_keywords_identity (text : string) (p : gpu_pattern) (k : string) :
  k ∈ pattern_keywords text p -> spec_identity_4 k.
Proof.
  unfold pattern_keywords. destruct (brand_tag p) as [b| ] eqn:Eb.
  - intros H. apply elem_of_list_to_set, list_elem_of_In, in_map_iff in H.
    destruct H as [m [<- Hm]]. exists b, m.
    split; [reflexivity | split; [eapply brand_tag_brand; eauto | ]].
    pose proof (findall_from_models (pattern_words p) text 0) as F.
    rewrite Forall_forall in F. apply F, list_elem_of_In. exact Hm.
  - intros H. now apply not_elem_of_empty in H.
Qed.

Lemma fallback_keywords_identity (listings : list listing) (k : string) :
  k ∈ fallback_keywords listings -> spec_identity_4 k.
Proof.
  unfold fallback_keywords. intros H.
  apply elem_of_union_list in H. destruct H as [X [HX Hk]].
  apply list_elem_of_In, in_map_iff in HX. destruct HX as [l [<- _]].
  apply elem_of_union_list in Hk. destruct Hk as [Y [HY Hk]].
  apply list_elem_of_In, in_map_iff in HY. destruct HY as [p [<- _]].
  eapply pattern_keywords_identity; eauto.
Qed.

Lemma fallback_result_exists (listings : list listing) :
  _extract_keywords_fallback listings
    (take 20 (elements (fallback_keywords listings))).
Proof.
  unfold _extract_keywords_fallback. split; [ | split].
  - eapply sublist_NoDup;
      [apply (NoDup_elements (fallback_keywords listings)) | apply sublist_take].
  - intros k Hk. apply elem_of_elements.
    eapply elem_of_sublist; [exact Hk | apply sublist_take].
  - rewrite length_take. reflexivity.
Qed.

(** X4. Every keyword the pattern fallback collects is [BRAND,MODEL] with
    the brand one of RTX, GTX, RX and the model exactly four digits (a
    three-digit model such as 970 is never found); what it returns is a list
    of at most 20 distinct such keywords, and there always is one. *)
Theorem fallback_keywords_valid :
  (forall (listings : list listing) (k : string),
      k ∈ fallback_keywords listings -> spec_identity_4 k)
  /\ (forall (listings : list listing) (result : list string),
      _extract_keywords_fallback listings result ->
      Forall spec_identity_4 result /\ NoDup result
      /\ (length result <= 20)%nat)
  /\ (forall listings : list listing,
      exists result, _extract_keywords_fallback listings result).
Proof.
  split; [exact fallback_keywords_identity | split].
  - intros listings result (Hn & Hin & Hlen). split; [ | split].
    + apply Forall_forall. intros k Hk.
      eapply fallback_keywords_identity, Hin, Hk.
    + exact Hn.
    + lia.
  - intros listings. eexists. apply fallback_result_exists.
Qed.

Lemma fallback_keywords_valid_witness :
  Forall spec_identity_4 ["RTX,3070"] /\ NoDup ["RTX,3070"]
  /\ (length ["RTX,3070"] <= 20)%nat.
Proof.
  apply (proj1 (proj2 fallback_keywords_valid) [example_vinted_ad]).
  split; [ | split].
  - repeat constructor. intros H. inversion H.
  - intros k Hk. apply list_elem_of_singleton in Hk. subst k.
    vm_compute. reflexivity.
  - vm_compute. reflexivity.
Defined.

End Fallback.

Section DeadPatterns.

Lemma upper_char_not_lower (c : ascii) : Py.is_lower (Py.upper_char c) = false.
Proof. destruct c as [[] [] [] [] [] [] [] []]; reflexivity. Qed.

Lemma upper_no_lower (s : string) :
  Py.all_chars (fun c => negb (Py.is_lower c)) (Py.upper s) = true.
Proof.
  unfold Py.upper. induction s as [ |c r IH]; simpl; [reflexivity | ].
  now rewrite upper_char_not_lower, IH.
Qed.

Lemma fallback_text_no_lower (l : listing) :
  Py.all_chars (fun c => negb (Py.is_lower c)) (fallback_text l) = true.
Proof.
  unfold fallback_text. rewrite !all_chars_app, !upper_no_lower. reflexivity.
Qed.

(** A word whose second letter is a lower-case one is not found at the
    head of a text without lower-case letters. *)
Lemma lower_word_not_found (a b : ascii) (word : string) (more : list string)
    (s : string) :
  Py.is_lower b = true ->
  Py.all_chars (fun c => negb (Py.is_lower c)) s = true ->
  match_pattern_here (String a (String b word) :: more) s = None.
Proof.
  intros Hb Hs. unfold match_pattern_here. cbn [match_words].
  destruct s as [ |c1 [ |c2 r]]; cbn [ReGpu.after_prefix].
  - reflexivity.
  - now destruct (Ascii.eqb a c1).
  - destruct (Ascii.eqb a c1); [ | reflexivity].
    destruct (Ascii.eqb b c2) eqn:E; [ | reflexivity].
    apply Ascii.eqb_eq in E. subst c2. simpl in Hs.
    rewrite Hb in Hs. simpl in Hs. rewrite andb_false_r in Hs. discriminate Hs.
Qed.

Lemma lower_word_findall (a b : ascii) (word : string) (more : list string)
    (s : string) :
  Py.is_lower b = true ->
  Py.all_chars (fun c => negb (Py.is_lower c)) s = true ->
  forall skip, findall_from (String a (String b word) :: more) skip s = [].
Proof.
  intros Hb. induction s as [ |c r IH]; intros Hs skip; [reflexivity | ].
  cbn [findall_from].
  assert (Hr : Py.all_chars (fun c => negb (Py.is_lower c)) r = true).
  { simpl in Hs. apply andb_true_iff in Hs. apply Hs. }
  destruct skip as [ |k]; [ | now apply IH].
  rewrite (lower_word_not_found a b word more _ Hb Hs). now apply IH.
Qed.

Lemma vendor_pattern_empty (l : listing) (p : gpu_pattern) :
  In p (drop 3 gpu_patterns) -> pattern_keywords (fallback_text l) p = ∅.
Proof.
  pose proof (fallback_text_no_lower l) as Hs.
  unfold gpu_patterns. cbn [drop]. intros [<- | [<- | [<- | []]]];
    unfold pattern_keywords, findall_pattern; cbn [pattern_words];
    rewrite lower_word_findall by (reflexivity || exact Hs);
    now destruct (brand_tag _).
Qed.

(** X5. The three vendor-prefixed patterns of the fallback ([Radeon RX],
    [GeForce RTX], [GeForce GTX]) never contribute a keyword: they hold
    lower-case letters and are matched, case-sensitively, against the
    upper-cased text. The keywords are those of the three plain patterns. *)
Theorem vendor_patterns_never_match :
  (forall (l : listing) (p : gpu_pattern),
      In p (drop 3 gpu_patterns) ->
      findall_pattern p (fallback_text l) = []
      /\ pattern_keywords (fallback_text l) p = ∅)
  /\ (forall listings : list listing,
      fallback_keywords listings
      = ⋃ (map (fun l => ⋃ (map (pattern_keywords (fallback_text l))
                                (take 3 gpu_patterns)))
               (take 50 listings))).
Proof.
  split.
  - intros l p Hp. split; [ | now apply vendor_pattern_empty].
    pose proof (fallback_text_no_lower l) as Hs.
    revert Hp. unfold gpu_patterns. cbn [drop].
    intros [<- | [<- | [<- | []]]]; unfold findall_pattern; cbn [pattern_words];
      apply lower_word_findall; (reflexivity || exact Hs).
  - intros listings. unfold fallback_keywords. f_equal.
    apply map_ext. intros l.
    pose proof (fun p H => vendor_pattern_empty l p H) as V.
    unfold gpu_patterns in *. cbn [drop In] in V. cbn [take map union_list].
    rewrite (V _ (or_introl eq_refl)),
            (V _ (or_intror (or_introl eq_refl))),
            (V _ (or_intror (or_intror (or_introl eq_refl)))).
    cbn [foldr]. now rewrite !union_empty_r_L.
Qed.

Lemma vendor_patterns_never_match_witness :
  findall_pattern
    {| pattern_text := "GeForce\s*RTX\s*(\d{4})";
       pattern_words := ["GeForce"; "RTX"] |}
    (fallback_text example_leboncoin_ad) = []
  /\ pattern_keywords (fallback_text example_leboncoin_ad)
       {| pattern_text := "GeForce\s*RTX\s*(\d{4})";
          pattern_words := ["GeForce"; "RTX"] |} = ∅.
Proof.
  apply (proj1 vendor_patterns_never_match).
  unfold gpu_patterns. cbn [drop In]. tauto.
Defined.

End DeadPatterns.

(** ** More on the fallback banding *)

Section Banding.

Ltac compare_cases :=
  repeat match goal with
  | H : context [PosDef.Pos.compare_cont Eq ?x ?y] |- _ =>
      change (PosDef.Pos.compare_cont Eq x y) with (Pos.compare x y) in H
  | |- context [PosDef.Pos.compare_cont Eq ?x ?y] =>
      change (PosDef.Pos.compare_cont Eq x y) with (Pos.compare x y)
  | H : context [Z.compare ?x ?y] |- _ =>
      destruct (Z.compare_spec x y); simpl in H; try discriminate H
  | H : context [Pos.compare ?x ?y] |- _ =>
      destruct (Pos.compare_spec x y); simpl in H; try discriminate H
  | |- context [Z.compare ?x ?y] =>
      destruct (Z.compare_spec x y); simpl
  | |- context [Pos.compare ?x ?y] =>
      destruct (Pos.compare_spec x y); simpl
  end.

Lemma leb_trans (a b c : float) :
  F64.leb a b = true -> F64.leb b c = true -> F64.leb a c = true.
Proof.
  unfold F64.leb, SFleb.
  destruct a as [[]|[]| |[] ma ea], b as [[]|[]| |[] mb eb],
           c as [[]|[]| |[] mc ec];
    simpl; try discriminate; try reflexivity;
    intros H1 H2; compare_cases; try reflexivity; try lia.
Qed.

(** The cascade goes down as the difference goes up. *)
Lemma fallback_rating_antitone (d1 d2 : float) :
  F64.leb d1 d2 = true -> fallback_rating d2 <= fallback_rating d1.
Proof.
  intros H.
  assert (T : forall c, F64.leb d2 c = true -> F64.leb d1 c = true)
    by (intros c; apply leb_trans; exact H).
  unfold fallback_rating.
  repeat match goal with
  | |- (if F64.leb d2 ?c then ?a else _) <= (if F64.leb d1 ?c then _ else _) =>
      let E := fresh "E" in
      destruct (F64.leb d2 c) eqn:E;
        [ rewrite (T c E); lia
        | destruct (F64.leb d1 c);
          [ repeat match goal with
                   | |- context [if ?b then _ else _] => destruct b
                   end; lia
          | ] ]
  end.
  lia.
Qed.

(** X6. The fallback rating never rises with the price difference: of two
    differences the larger one (the dearer listing, relative to its market
    price) gets a rating that is at most the other's. *)
Theorem cheaper_is_never_rated_lower (d1 d2 : float) :
  F64.leb d1 d2 = true -> fallback_rating d2 <= fallback_rating d1.
Proof. apply fallback_rating_antitone. Qed.

Lemma cheaper_is_never_rated_lower_witness :
  fallback_rating (F64.of_Z 12) <= fallback_rating (F64.of_Z (-7)).
Proof.
  apply (cheaper_is_never_rated_lower (F64.of_Z (-7)) (F64.of_Z 12)).
  reflexivity.
Defined.

End Banding.

Section BandingEdges.








Lemma nan_truthy : truthy (VFloat F64.nan) = true.
Proof. reflexivity. Qed.

Lemma price_difference_nan (f g : float) :
  F64.is_nan f = true \/ F64.is_nan g = true ->
  truthy (VFloat g) = true ->
  price_difference (VFloat f) (VFloat g) = Ok F64.nan.
Proof.
  intros H Tg. unfold price_difference. cbn [py_sub bind py_truediv].
  unfold float_div. apply truthy_float_nonzero in Tg. rewrite Tg. cbn [bind].
  destruct H as [H | H].
  - destruct f; try discriminate H. reflexivity.
  - destruct g; try discriminate H. now destruct f.
Qed.

(** X8. A price that is not a number is not caught by the guard: when the
    listing price or the market price is a float NaN (the other being
    non-zero), or the listing price is a string [float] reads as NaN, and
    the service gives no rating, the rater returns 1, not the default 5. *)
Theorem nan_price_is_rated_one :
  (forall (f g : float) (w : world),
      F64.is_nan f = true \/ F64.is_nan g = true ->
      truthy (VFloat f) = true -> truthy (VFloat g) = true ->
      no_rating w ->
      rate (VFloat f) (VFloat g) w = Ok 1)
  /\ (forall (s : string) (g : float) (w : world),
      PyFloat.float_of_str s = Some F64.nan ->
      truthy (VFloat g) = true ->
      no_rating w ->
      rate (VStr s) (VFloat g) w = Ok 1).
Proof.
  split.
  - intros f g w H Tf Tg Hw.
    now rewrite (rate_no_rating (VFloat f) (VFloat g) F64.nan w Tf Tg
                   (price_difference_nan f g H Tg) Hw).
  - intros s g w Hs Tg Hw.
    assert (C : convert_listing_price (VStr s) = VFloat F64.nan)
      by (simpl; now rewrite Hs).
    rewrite (rate_no_rating (VStr s) (VFloat g) F64.nan w); try assumption.
    + reflexivity.
    + now rewrite C.
    + rewrite C. apply price_difference_nan; [now left | exact Tg].
Qed.

Lemma nan_price_is_rated_one_witness :
  rate (VStr " NaN ") (VFloat (F64.of_Z 250)) (fresh []) = Ok 1.
Proof.
  apply (proj2 nan_price_is_rated_one " NaN " (F64.of_Z 250) (fresh [])).
  - vm_compute. reflexivity.
  - reflexivity.
  - exact no_rating_fresh_nil.
Defined.

End BandingEdges.

(** ** The dashboard's class for a rating *)

Section RatingColor.

(** X9. On the rating the fallback gives, the dashboard's class is
    [rating-excellent] exactly when the price difference is at most -10,
    and [rating-poor] exactly when it is not at most 10 (above 10, or NaN). *)
Theorem rating_color_of_fallback (d : float) :
  (get_rating_color (fallback_rating d) = "rating-excellent"
   <-> F64.leb d (F64.of_Z (-10)) = true)
  /\ (get_rating_color (fallback_rating d) = "rating-poor"
      <-> F64.leb d (F64.of_Z 10) = false).
Proof.
  unfold fallback_rating.
  repeat match goal with
  | |- context [if F64.leb d ?c then _ else _] =>
      let E := fresh "E" in destruct (F64.leb d c) eqn:E
  end;
  (split; split; intros H; try reflexivity; try discriminate H;
   try assumption; try congruence;
   try (eapply leb_trans; [eassumption | reflexivity]);
   exfalso;
   match goal with
   | E : F64.leb d ?c = true, F : F64.leb d ?c' = false |- _ =>
       assert (F64.leb d c' = true)
         by (eapply leb_trans; [exact E | reflexivity]); congruence
   end).
Qed.

End RatingColor.

(** ** Prices read from strings are never negative *)

Section NonNegative.

Lemma shr_1_nonneg (mrs : shr_record) :
  0 <= shr_m mrs -> 0 <= shr_m (shr_1 mrs).
Proof.
  destruct mrs as [m r s]. simpl.
  destruct m as [ |p|p]; simpl; try lia;
    destruct p; simpl; lia.
Qed.

Lemma iter_shr_1_nonneg (p : positive) :
  forall mrs, 0 <= shr_m mrs -> 0 <= shr_m (SpecFloat.iter_pos shr_1 p mrs).
Proof.
  induction p as [p IH|p IH| ]; intros mrs H; simpl.
  - apply IH, IH, shr_1_nonneg, H.
  - apply IH, IH, H.
  - apply shr_1_nonneg, H.
Qed.

Lemma shr_fexp_nonneg (m e : Z) (l : location) :
  0 <= m -> 0 <= shr_m (fst (shr_fexp F64.prec F64.emax m e l)).
Proof.
  intros H. unfold shr_fexp, shr.
  assert (H0 : 0 <= shr_m (shr_record_of_loc m l))
    by (destruct l as [ |[]]; exact H).
  destruct (fexp F64.prec F64.emax (Zdigits2 m + e) - e) as [ |p|p]; simpl;
    try exact H0.
  now apply iter_shr_1_nonneg.
Qed.

Lemma round_nearest_even_nonneg (m : Z) (l : location) :
  0 <= m -> 0 <= round_nearest_even m l.
Proof.
  intros H. destruct l as [ |[]]; simpl; try destruct (Z.even m); lia.
Qed.

(** Rounding a non-negative mantissa with a positive sign gives zero, a
    positive number or plus infinity. *)
Lemma binary_round_aux_nonneg (mx ex : Z) (lx : location) :
  0 <= mx ->
  F64.leb F64.zero (binary_round_aux F64.prec F64.emax false mx ex lx) = true.
Proof.
  intros H. unfold binary_round_aux.
  pose proof (shr_fexp_nonneg mx ex lx H) as H1.
  destruct (shr_fexp F64.prec F64.emax mx ex lx) as [mrs' e']. simpl in H1.
  pose proof (shr_fexp_nonneg
                (round_nearest_even (shr_m mrs') (loc_of_shr_record mrs')) e'
                loc_Exact (round_nearest_even_nonneg _ _ H1)) as H2.
  destruct (shr_fexp F64.prec F64.emax _ e' loc_Exact) as [mrs'' e''].
  simpl in H2.
  destruct (shr_m mrs'') as [ |p|p]; [reflexivity | | lia].
  now destruct (e'' <=? F64.emax - F64.prec).
Qed.

Lemma of_Z_nonneg (z : Z) : 0 <= z -> F64.leb F64.zero (F64.of_Z z) = true.
Proof.
  intros H. unfold F64.of_Z, binary_normalize.
  destruct z as [ |p|p]; [reflexivity | | lia].
  unfold binary_round.
  destruct (shl_align p 0 (fexp F64.prec F64.emax (Z.pos (digits2_pos p) + 0)))
    as [mz ez].
  apply binary_round_aux_nonneg. lia.
Qed.

Lemma div_raw_nonneg (p q : positive) :
  F64.leb F64.zero (F64.div (F64.raw (Z.pos p)) (F64.raw (Z.pos q))) = true.
Proof.
  unfold F64.div, F64.raw, SFdiv.
  destruct (SFdiv_core_binary F64.prec F64.emax (Z.pos p) 0 (Z.pos q) 0)
    as [[mz ez] lz] eqn:E.
  apply binary_round_aux_nonneg.
  unfold SFdiv_core_binary in E.
  set (e' := Z.min _ _) in E. set (s := 0 - 0 - e') in E.
  set (m' := match s with Z.pos _ => Z.shiftl (Z.pos p) s | 0 => Z.pos p
                        | Z.neg _ => 0 end) in E.
  assert (Hm : 0 <= m').
  { unfold m'. destruct s; try lia. apply Z.shiftl_nonneg. lia. }
  pose proof (Z.div_pos m' (Z.pos q) Hm ltac:(lia)) as Hq.
  unfold Z.div in Hq. destruct (Z.div_eucl m' (Z.pos q)) as [q0 r0].
  injection E as <- _ _. exact Hq.
Qed.

Lemma int_of_digits_acc_nonneg (s : string) :
  forall acc, 0 <= acc -> 0 <= Py.int_of_digits_acc acc s.
Proof.
  induction s as [ |c r IH]; intros acc H; simpl; [exact H | ].
  apply IH. unfold Py.digit_val. lia.
Qed.

Lemma decimal_nonneg (m e : Z) :
  0 <= m -> F64.leb F64.zero (PyFloat.decimal m e) = true.
Proof.
  intros H. unfold PyFloat.decimal.
  destruct (m =? 0) eqn:E0; [reflexivity | ]. apply Z.eqb_neq in E0.
  destruct (0 <=? e) eqn:Ee.
  - apply of_Z_nonneg. apply Z.leb_le in Ee.
    apply Z.mul_nonneg_nonneg; [exact H | ]. apply Z.pow_nonneg. lia.
  - apply Z.leb_gt in Ee.
    pose proof (Z.pow_pos_nonneg 10 (- e) ltac:(lia) ltac:(lia)) as Hp.
    destruct m as [ |p|p]; try lia.
    destruct (10 ^ (- e)) as [ |q|q]; try lia.
    apply div_raw_nonneg.
Qed.

Lemma plain_numeral_nonneg (n : string) (f : float) :
  plain_numeral n -> PyFloat.float_of_str n = Some f ->
  F64.leb F64.zero f = true.
Proof.
  intros (a & b & Ha & Hb & [-> | ->]).
  - rewrite (float_of_plain_digits _ Ha). intros [= <-].
    apply decimal_nonneg, int_of_digits_acc_nonneg. lia.
  - rewrite (float_of_plain_fraction _ _ Ha Hb). intros [= <-].
    apply decimal_nonneg, int_of_digits_acc_nonneg. lia.
Qed.

(** X10. The price [_extract_price] reads from a string is never negative
    and never NaN: it is zero, a positive number or plus infinity. A minus
    sign in front of the string changes nothing. *)
Theorem string_price_never_negative :
  (forall s : string,
      exists f, _extract_price (VStr s) = Ok f /\ F64.leb F64.zero f = true)
  /\ (forall s : string,
      _extract_price (VStr ("-" ++ s)) = _extract_price (VStr s)).
Proof.
  split.
  - intros s. cbn [_extract_price].
    destruct (Re.search_price (Py.replace "," "." s)) as [n| ] eqn:Hs.
    + pose proof (search_price_numeral _ _ (replace_no_comma s) Hs) as Hp.
      destruct (float_of_plain_numeral _ Hp) as [f Hf].
      rewrite Hf. exists f. split; [reflexivity | ].
      eapply plain_numeral_nonneg; eauto.
    + exists F64.zero. split; reflexivity.
  - intros s. reflexivity.
Qed.

End NonNegative.

(** ** More on de-duplication and on the fetchers *)

Section DedupMore.

Implicit Types (seen : gset string) (listings : list listing).





Lemma length_take_le {A : Type} (n : nat) (l : list A) :
  (length (take n l) <= n)%nat.
Proof. rewrite length_take. lia. Qed.


(** X13. The batch that enters the per-listing loop holds at most ten
    listings of each source, so at most twenty, Vinted's first. *)
Theorem batch_is_bounded (v l : option (list listing)) :
  (length (test_listings v l) <= 20)%nat
  /\ (length (List.filter (from_source "vinted") (test_listings v l)) <= 10)%nat
  /\ (length (List.filter (from_source "leboncoin") (test_listings v l)) <= 10)%nat
  /\ test_listings v l
     = (List.filter (from_source "vinted") (test_listings v l)
        ++ List.filter (from_source "leboncoin") (test_listings v l))%list.
Proof.
  destruct (batch_of_source v l) as [Ev El]. rewrite Ev, El.
  rewrite test_listings_parts, length_app.
  pose proof (length_take_le 10 (fetch_vinted_gpus 100 v)).
  pose proof (length_take_le 10 (fetch_leboncoin_gpus 100 l)).
  repeat split; lia.
Qed.

End DedupMore.

(** ** One listing: [run_price_comparison_for_listing] *)

Section OneListing.

Lemma make_request_counters (w : world) :
  calls (snd (_make_request w)) = S (calls w)
  /\ sleeps (snd (_make_request w)) = sleeps w.
Proof. unfold _make_request. destruct (pending w); split; reflexivity. Qed.

Lemma find_best_first_ten (l : listing) (price_data : list market_item)
    (w : world) (item : market_item) :
  fst (_find_best_match_with_ai l price_data w) = Some item ->
  item ∈ take 10 price_data.
Proof.
  unfold _find_best_match_with_ai.
  destruct (take 10 price_data) as [ |x rest] eqn:Et; [discriminate | ].
  assert (Hhead : head price_data = Some x).
  { destruct price_data as [ |y ys]; [discriminate | ].
    simpl in Et. now injection Et as -> _. }
  destruct (_make_request w) as [response w1].
  assert (Hfb : head price_data = Some item -> item ∈ x :: rest).
  { rewrite Hhead. intros [= <-]. apply list_elem_of_here. }
  destruct (has_text response) as [r| ]; [ | exact Hfb].
  destruct (parse_index (length (x :: rest)) r) as [index| ] eqn:Ei;
    [ | exact Hfb].
  cbn [fst]. intros Hi.
  assert (Hlt : (index < length (x :: rest))%nat).
  { unfold parse_index in Ei.
    destruct (Re.findall_rating r) as [ |n ns]; [discriminate | ].
    destruct ((0 <=? Py.int_of_digits n - 1)
              && (Py.int_of_digits n - 1 <? Z.of_nat (length (x :: rest))))
      eqn:Eb; [ | discriminate].
    injection Ei as <-. apply andb_true_iff in Eb. destruct Eb as [E1 E2].
    apply Z.leb_le in E1. apply Z.ltb_lt in E2. lia. }
  rewrite <- Et in Hlt |- *.
  apply list_elem_of_lookup. exists index.
  rewrite lookup_take_lt; [exact Hi | ]. rewrite length_take in Hlt. lia.
Qed.

Lemma find_best_some (l : listing) (price_data : list market_item) (w : world) :
  price_data <> [] ->
  exists item, fst (_find_best_match_with_ai l price_data w) = Some item.
Proof.
  intros Hne. destruct price_data as [ |x rest]; [congruence | ].
  unfold _find_best_match_with_ai.
  change (take 10 (x :: rest)) with (x :: take 9 rest).
  destruct (_make_request w) as [response w1]. cbn [head].
  destruct (has_text response) as [r| ]; [ | now exists x].
  destruct (parse_index (length (x :: take 9 rest)) r) as [index| ] eqn:Ei;
    [ | now exists x].
  cbn [fst]. apply lookup_lt_is_Some_2.
  unfold parse_index in Ei.
  destruct (Re.findall_rating r) as [ |n ns]; [discriminate | ].
  destruct ((0 <=? Py.int_of_digits n - 1)
            && (Py.int_of_digits n - 1 <? Z.of_nat (length (x :: take 9 rest))))
    eqn:Eb; [ | discriminate].
  injection Ei as <-. apply andb_true_iff in Eb. destruct Eb as [E1 E2].
  apply Z.leb_le in E1. apply Z.ltb_lt in E2.
  cbn [length] in *. rewrite length_take in E2. lia.
Qed.

Lemma find_best_counters (l : listing) (price_data : list market_item)
    (w : world) :
  (calls w <= calls (snd (_find_best_match_with_ai l price_data w))
           <= calls w + 1)%nat
  /\ sleeps (snd (_find_best_match_with_ai l price_data w)) = sleeps w.
Proof.
  unfold _find_best_match_with_ai.
  destruct (take 10 price_data); [simpl; split; [lia | reflexivity] | ].
  destruct (make_request_counters w) as [Hc Hs].
  destruct (_make_request w) as [response w1]. simpl in Hc, Hs.
  destruct (has_text response) as [r| ]; [ | simpl; split; [lia | exact Hs]].
  destruct (parse_index _ r); simpl; split; (lia || exact Hs).
Qed.

(** X14. Whatever the service answers, the market entry the resolver
    selects is one of the first ten entries of the price data, the only ones
    the service was shown; there is one as soon as the data is not empty,
    and none, with no call made, when it is empty. *)
Theorem best_match_among_first_ten (l : listing) (price_data : list market_item)
    (w : world) :
  (forall item, fst (_find_best_match_with_ai l price_data w) = Some item ->
     item ∈ take 10 price_data)
  /\ (price_data <> [] ->
      exists item, fst (_find_best_match_with_ai l price_data w) = Some item)
  /\ (price_data = [] -> _find_best_match_with_ai l price_data w = (None, w)).
Proof.
  split; [ | split].
  - intros item. apply find_best_first_ten.
  - apply find_best_some.
  - intros ->. reflexivity.
Qed.

Lemma best_match_among_first_ten_witness :
  exists item, fst (_find_best_match_with_ai example_vinted_ad example_items
                      (fresh [Some "10"])) = Some item.
Proof.
  apply (proj1 (proj2 (best_match_among_first_ten example_vinted_ad
                         example_items (fresh [Some "10"])))).
  discriminate.
Defined.

Lemma identify_counters (text : string) (w : world) :
  (calls w <= calls (snd (_extract_gpu_from_listing text w)) <= calls w + 3)%nat
  /\ (sleeps w <= sleeps (snd (_extract_gpu_from_listing text w))
               <= sleeps w + 2)%nat.
Proof.
  unfold _extract_gpu_from_listing. change (seq 0 3) with [0; 1; 2]%nat.
  pose proof (attempt_loop_calls [0; 1; 2]%nat w) as [Hc _].
  pose proof (attempt_loop_sleeps [0; 1; 2]%nat w) as Hs.
  cbn [length] in Hc.
  change (length (List.filter _ [0; 1; 2]%nat)) with 2%nat in Hs.
  split; lia.
Qed.

Lemma run_price_comparison_counters (l : listing)
    (lookup : string -> option (list market_item)) (w : world) :
  (calls w <= calls (snd (run_price_comparison_for_listing l lookup w))
           <= calls w + 4)%nat
  /\ (sleeps w <= sleeps (snd (run_price_comparison_for_listing l lookup w))
               <= sleeps w + 2)%nat.
Proof.
  unfold run_price_comparison_for_listing.
  destruct (Py.is_empty (title l)); [simpl; lia | ].
  pose proof (identify_counters
                (Py.strip (title l ++ " " ++ description l)) w) as [Hc Hs].
  destruct (_extract_gpu_from_listing _ w) as [found w1]. simpl in Hc, Hs.
  destruct found as [keyword| ]; [ | simpl; lia].
  destruct (lookup keyword) as [[ |x rest]| ]; try (simpl; lia).
  pose proof (find_best_counters l (x :: rest) w1) as [Hc2 Hs2].
  destruct (_find_best_match_with_ai l (x :: rest) w1) as [best w2].
  simpl in Hc2, Hs2.
  destruct best as [item| ]; [ | simpl; lia].
  destruct (_extract_price _); simpl; lia.
Qed.

Lemma run_price_comparison_result (l : listing)
    (lookup : string -> option (list market_item)) (w : world)
    (pr : price_result) :
  fst (run_price_comparison_for_listing l lookup w) = Some pr ->
  title l <> EmptyString
  /\ spec_identity (gpu_keyword pr)
  /\ (exists price_data,
        lookup (gpu_keyword pr) = Some price_data
        /\ matched_item pr ∈ take 10 price_data)
  /\ _extract_price (default (VInt 0) (m_price (matched_item pr)))
     = Ok (current_price pr).
Proof.
  unfold run_price_comparison_for_listing.
  destruct (Py.is_empty (title l)) eqn:Et; [discriminate | ].
  pose proof (fun k => attempt_loop_found (seq 0 3) w k) as Hid.
  unfold _extract_gpu_from_listing.
  destruct (attempt_loop (seq 0 3) w) as [found w1]. simpl in Hid.
  destruct found as [keyword| ]; [ | discriminate].
  destruct (Hid keyword eq_refl) as [r Hr].
  apply parse_found_identity in Hr.
  destruct (lookup keyword) as [[ |x rest]| ] eqn:El; try discriminate.
  pose proof (find_best_first_ten l (x :: rest) w1) as Hb.
  destruct (_find_best_match_with_ai l (x :: rest) w1) as [best w2].
  simpl in Hb. destruct best as [item| ]; [ | discriminate].
  destruct (_extract_price (default (VInt 0) (m_price item))) as [p|e] eqn:Ep;
    [ | discriminate].
  cbn [fst]. intros [= <-]. cbn [gpu_keyword matched_item current_price].
  split; [intros E; rewrite E in Et; discriminate Et | ].
  split; [exact Hr | split; [ | exact Ep]].
  exists (x :: rest). split; [exact El | now apply Hb].
Qed.



(** X16. For one listing the price comparison makes at most four
    completion calls (three to identify, one to match) and sleeps at most
    twice; it makes none when the listing has no title, and at most three
    when the lookup returns nothing. *)
Theorem price_comparison_is_bounded :
  (forall (l : listing) (lookup : string -> option (list market_item))
          (w : world),
      (calls w <= calls (snd (run_price_comparison_for_listing l lookup w))
               <= calls w + 4)%nat
      /\ (sleeps w <= sleeps (snd (run_price_comparison_for_listing l lookup w))
                   <= sleeps w + 2)%nat)
  /\ (forall (l : listing) (lookup : string -> option (list market_item))
             (w : world),
      title l = EmptyString ->
      run_price_comparison_for_listing l lookup w = (None, w))
  /\ (forall (l : listing) (w : world),
      fst (run_price_comparison_for_listing l (fun _ => None) w) = None
      /\ (calls (snd (run_price_comparison_for_listing l (fun _ => None) w))
          <= calls w + 3)%nat).
Proof.
  split; [exact run_price_comparison_counters | split].
  - intros l lookup w Ht. unfold run_price_comparison_for_listing.
    now rewrite Ht.
  - intros l w. unfold run_price_comparison_for_listing.
    destruct (Py.is_empty (title l)); [simpl; split; [reflexivity | lia] | ].
    pose proof (identify_counters
                  (Py.strip (title l ++ " " ++ description l)) w) as [Hc _].
    destruct (_extract_gpu_from_listing _ w) as [found w1]. simpl in Hc.
    destruct found; simpl; split; (reflexivity || lia).
Qed.

Lemma price_comparison_is_bounded_witness :
  run_price_comparison_for_listing (priced (VInt 100))
    (fun _ => Some example_items) (fresh [Some "RTX,3070"])
  = (None, fresh [Some "RTX,3070"]).
Proof.
  apply (proj1 (proj2 price_comparison_is_bounded)). reflexivity.
Defined.

End OneListing.

(** ** A whole run: [process_listings] *)

Section WholeRun.

Implicit Types (lookup : string -> option (list market_item)).

Lemma rating_counters (l : listing) (cp : pyval) (w : world) :
  (calls w <= calls (snd (generate_deal_rating l cp w)) <= calls w + 1)%nat
  /\ sleeps (snd (generate_deal_rating l cp w)) = sleeps w.
Proof.
  unfold generate_deal_rating. cbv zeta.
  destruct (negb (truthy cp) || negb (truthy _));
    [cbn [snd]; split; [lia | reflexivity] | ].
  destruct (price_difference _ cp); [ | cbn [snd]; split; [lia | reflexivity]].
  destruct (make_request_counters w) as [Hc Hs].
  destruct (_make_request w) as [response w1]. cbn [snd] in Hc, Hs.
  destruct (has_text response) as [r| ]; [destruct (parse_rating r) | ];
    cbn [snd]; (split; [lia | exact Hs]).
Qed.

Lemma rating_range (l : listing) (cp : pyval) (w : world) (n : Z) :
  fst (generate_deal_rating l cp w) = Ok n -> 1 <= n <= 10.
Proof.
  unfold generate_deal_rating. cbv zeta.
  destruct (negb (truthy cp) || negb (truthy _)); [intros [= <-]; lia | ].
  destruct (price_difference _ cp) as [d|e]; [ | discriminate].
  destruct (_make_request w) as [response w1].
  pose proof (fallback_rating_range d) as Hf.
  destruct (has_text response) as [r| ]; [ | intros [= <-]; exact Hf].
  destruct (parse_rating r) as [k| ] eqn:E; intros [= <-];
    [eapply parse_rating_range; eauto | exact Hf].
Qed.

(** With a float for the market price a usable listing price is always
    rated. *)
Lemma rating_with_float_market (l : listing) (g : float) (w : world) :
  usable_listing_price (default (VInt 0) (price l)) ->
  exists n, fst (generate_deal_rating l (VFloat g) w) = Ok n.
Proof.
  intros Hl.
  destruct (truthy (VFloat g)) eqn:Tg.
  2:{ rewrite generate_deal_rating_guard by now left. now exists 5. }
  destruct (truthy (convert_listing_price (default (VInt 0) (price l)))) eqn:Tl.
  2:{ rewrite generate_deal_rating_guard by now right. now exists 5. }
  destruct (price_difference_usable _ g Hl Tl Tg) as [d Hd].
  destruct (rating_after_difference l (VFloat g) d w Tg Tl Hd) as [n [E _]].
  exists n. now rewrite E.
Qed.

Lemma unpriced_deal_well_formed (l : listing) : well_formed_deal (unpriced_deal l).
Proof. split; [simpl; lia | now left]. Qed.

(** The loop yields one deal per listing, in the order of the listings, and
    every deal is well formed. *)
Lemma process_each_shape (todo : list listing) lookup :
  forall (w : world) (ds : list scored_deal),
    fst (process_each todo lookup w) = Ok ds ->
    map deal_listing ds = todo /\ Forall well_formed_deal ds.
Proof.
  induction todo as [ |l rest IH]; intros w ds; cbn [process_each].
  - intros [= <-]. split; [reflexivity | constructor].
  - pose proof (run_price_comparison_result l lookup w) as Hpr.
    destruct (run_price_comparison_for_listing l lookup w) as [found w1].
    simpl in Hpr. destruct found as [pr| ].
    + destruct (Hpr pr eq_refl) as (_ & Hk & _ & Hp).
      pose proof (rating_range l (VFloat (current_price pr)) w1) as Hr.
      destruct (generate_deal_rating l (VFloat (current_price pr)) w1)
        as [rated w2]. simpl in Hr.
      destruct rated as [r|e]; [ | discriminate].
      specialize (IH w2).
      destruct (process_each rest lookup w2) as [others w3]. simpl in IH.
      destruct others as [ds'|e]; [ | discriminate].
      cbn [fst bind]. intros [= <-].
      destruct (IH ds' eq_refl) as [Hm Hf].
      split; [simpl; now rewrite Hm | ].
      constructor; [ | exact Hf].
      split; [simpl; now apply Hr | right].
      exists (gpu_keyword pr), (matched_item pr), (current_price pr).
      simpl. auto.
    + specialize (IH w1).
      destruct (process_each rest lookup w1) as [others w2]. simpl in IH.
      destruct others as [ds'|e]; [ | discriminate].
      cbn [fst bind]. intros [= <-].
      destruct (IH ds' eq_refl) as [Hm Hf].
      split; [simpl; now rewrite Hm | ].
      constructor; [apply (unpriced_deal_well_formed l) | exact Hf].
Qed.

Lemma process_each_counters (todo : list listing) lookup :
  forall w : world,
    (calls w <= calls (snd (process_each todo lookup w))
             <= calls w + 5 * length todo)%nat
    /\ (sleeps w <= sleeps (snd (process_each todo lookup w))
                 <= sleeps w + 2 * length todo)%nat.
Proof.
  induction todo as [ |l rest IH]; intros w; cbn [process_each length].
  - simpl. lia.
  - pose proof (run_price_comparison_counters l lookup w) as [Hc Hs].
    destruct (run_price_comparison_for_listing l lookup w) as [found w1].
    simpl in Hc, Hs. destruct found as [pr| ].
    + pose proof (rating_counters l (VFloat (current_price pr)) w1) as [Hc2 Hs2].
      destruct (generate_deal_rating l (VFloat (current_price pr)) w1)
        as [rated w2]. simpl in Hc2, Hs2.
      destruct rated as [r|e]; [ | simpl; lia].
      specialize (IH w2).
      destruct (process_each rest lookup w2) as [others w3]. simpl in *. lia.
    + specialize (IH w1).
      destruct (process_each rest lookup w1) as [others w2]. simpl in *. lia.
Qed.

Lemma process_each_usable (todo : list listing) lookup :
  Forall (fun x => usable_listing_price (default (VInt 0) (price x))) todo ->
  forall w : world, exists ds, fst (process_each todo lookup w) = Ok ds.
Proof.
  induction 1 as [ |l rest Hl _ IH]; intros w; cbn [process_each].
  - now exists [].
  - destruct (run_price_comparison_for_listing l lookup w) as [found w1].
    destruct found as [pr| ].
    + destruct (rating_with_float_market l (current_price pr) w1 Hl) as [n Hn].
      destruct (generate_deal_rating l (VFloat (current_price pr)) w1)
        as [rated w2]. simpl in Hn. subst rated.
      destruct (IH w2) as [ds Hds].
      destruct (process_each rest lookup w2) as [others w3]. simpl in Hds.
      subst others. eexists. reflexivity.
    + destruct (IH w1) as [ds Hds].
      destruct (process_each rest lookup w1) as [others w2]. simpl in Hds.
      subst others. eexists. reflexivity.
Qed.

(** X17. A run that ends without an exception returns exactly one deal for
    each listing of the batch, none dropped and none added: the listings of
    the output are a permutation of the batch, so there are at most 20. *)
Theorem run_keeps_every_listing (v l : option (list listing)) lookup
    (w : world) (out : list scored_deal) :
  fst (process_listings v l lookup w) = Ok out ->
  Permutation (map deal_listing out) (test_listings v l)
  /\ length out = length (test_listings v l)
  /\ (length out <= 20)%nat.
Proof.
  intros H.
  destruct (process_listings_sorted _ _ _ _ _ H) as [results [Hr ->]].
  destruct (process_each_shape _ _ _ _ Hr) as [Hm _].
  assert (P : Permutation (map deal_listing (sort_by_rating_desc results))
                (test_listings v l)).
  { rewrite <- Hm. apply Permutation_map, sort_perm. }
  split; [exact P | ].
  assert (L : length (sort_by_rating_desc results) = length (test_listings v l)).
  { apply Permutation_length in P. now rewrite length_map in P. }
  split; [exact L | ]. rewrite L, test_listings_parts, length_app.
  pose proof (length_take_le 10 (fetch_vinted_gpus 100 v)).
  pose proof (length_take_le 10 (fetch_leboncoin_gpus 100 l)). lia.
Qed.

Lemma run_keeps_every_listing_witness :
  Permutation
    (map deal_listing
       [unpriced_deal (with_source "vinted" example_vinted_ad);
        unpriced_deal (with_source "leboncoin" example_leboncoin_ad)])
    (test_listings (Some [example_vinted_ad]) (Some [example_leboncoin_ad]))
  /\ length [unpriced_deal (with_source "vinted" example_vinted_ad);
            unpriced_deal (with_source "leboncoin" example_leboncoin_ad)]
     = length (test_listings (Some [example_vinted_ad])
                 (Some [example_leboncoin_ad]))
  /\ (length [unpriced_deal (with_source "vinted" example_vinted_ad);
              unpriced_deal (with_source "leboncoin" example_leboncoin_ad)]
      <= 20)%nat.
Proof.
  apply (run_keeps_every_listing (Some [example_vinted_ad])
           (Some [example_leboncoin_ad]) (fun _ => None) (fresh [])).
  vm_compute. reflexivity.
Defined.



(** X19. A run makes at most five completion calls and two one-second
    sleeps for each listing of the batch, so at most 100 calls and 40 sleeps,
    whether it ends with a result or with an exception. *)
Theorem run_is_bounded (v l : option (list listing)) lookup (w : world) :
  (calls w <= calls (snd (process_listings v l lookup w))
           <= calls w + 5 * length (test_listings v l))%nat
  /\ (calls (snd (process_listings v l lookup w)) <= calls w + 100)%nat
  /\ (sleeps (snd (process_listings v l lookup w)) <= sleeps w + 40)%nat.
Proof.
  unfold process_listings.
  pose proof (process_each_counters (test_listings v l) lookup w) as [Hc Hs].
  destruct (process_each (test_listings v l) lookup w) as [results w1].
  simpl in *.
  assert (L : (length (test_listings v l) <= 20)%nat).
  { rewrite test_listings_parts, length_app.
    pose proof (length_take_le 10 (fetch_vinted_gpus 100 v)).
    pose proof (length_take_le 10 (fetch_leboncoin_gpus 100 l)). lia. }
  lia.
Qed.

(** X20. A run raises nothing when every listing of the batch has a price
    that is missing, [None], a float, a string or an int that [float] can
    represent: the market price it rates against is always a float. *)
Theorem run_never_raises (v l : option (list listing)) lookup (w : world) :
  Forall (fun x => usable_listing_price (default (VInt 0) (price x)))
    (test_listings v l) ->
  exists out, fst (process_listings v l lookup w) = Ok out.
Proof.
  intros H. unfold process_listings.
  destruct (process_each_usable _ lookup H w) as [ds Hds].
  destruct (process_each (test_listings v l) lookup w) as [results w1].
  simpl in Hds. subst results. eexists. reflexivity.
Qed.

Lemma run_never_raises_witness :
  exists out,
    fst (process_listings (Some [example_vinted_ad]) (Some [example_leboncoin_ad])
           (fun _ => Some example_items)
           (fresh [Some "RTX,3070"; Some "2"; Some "8"])) = Ok out.
Proof.
  apply (run_never_raises (Some [example_vinted_ad]) (Some [example_leboncoin_ad])).
  vm_compute. repeat constructor.
Defined.

End WholeRun.

(** ** When the completion service is down *)

Section ServiceDown.

Implicit Types (lookup : string -> option (list market_item)).

Lemma make_request_failing (w : world) (n : nat) :
  Forall (fun o => has_text o = None) (take (S n) (pending w)) ->
  has_text (fst (_make_request w)) = None
  /\ Forall (fun o => has_text o = None) (take n (pending (snd (_make_request w))))
  /\ pending (snd (_make_request w)) = drop 1 (pending w).
Proof.
  unfold _make_request. destruct (pending w) as [ |o later]; cbn.
  - intros _. split; [reflexivity | split; [ | reflexivity]].
    rewrite take_nil. constructor.
  - intros H. apply Forall_cons in H. destruct H as [Ho Hl].
    split; [exact Ho | split; [exact Hl | ]]. now rewrite drop_0.
Qed.

(** When every response is empty or failed the loop runs to its end. *)
Lemma attempt_loop_failing (attempts : list nat) :
  forall w : world,
    Forall (fun o => has_text o = None) (take (length attempts) (pending w)) ->
    fst (attempt_loop attempts w) = None
    /\ calls (snd (attempt_loop attempts w)) = (calls w + length attempts)%nat
    /\ sleeps (snd (attempt_loop attempts w))
       = (sleeps w + length (List.filter (fun a => a <? 2) attempts))%nat
    /\ pending (snd (attempt_loop attempts w))
       = drop (length attempts) (pending w).
Proof.
  induction attempts as [ |a rest IH]; intros w H.
  - simpl. rewrite drop_0. repeat split; lia.
  - cbn [attempt_loop length].
    destruct (make_request_failing w (length rest) H) as (Ht & Hrest & Hp).
    destruct (make_request_counters w) as [Hc Hs].
    destruct (_make_request w) as [response w1]. cbn [fst snd] in *.
    rewrite Ht.
    assert (Hw : forall b : bool,
              Forall (fun o => has_text o = None)
                (take (length rest) (pending (if b then sleep_1 w1 else w1))))
      by (intros []; exact Hrest).
    destruct (IH _ (Hw (a <? 2)%nat)) as (R1 & R2 & R3 & R4).
    rewrite R1, R2, R3, R4. cbn [List.filter].
    destruct (a <? 2)%nat; cbn [calls sleeps pending sleep_1 length];
      rewrite Hc, Hs, Hp, drop_drop;
      repeat split; lia.
Qed.

(** X21. When the three completion calls of the identifier all fail or
    answer nothing, it returns [None] after exactly three calls and two
    one-second sleeps. *)
Theorem identify_gives_up_after_three (text : string) (w : world) :
  Forall (fun o => has_text o = None) (take 3 (pending w)) ->
  fst (_extract_gpu_from_listing text w) = None
  /\ calls (snd (_extract_gpu_from_listing text w)) = (calls w + 3)%nat
  /\ sleeps (snd (_extract_gpu_from_listing text w)) = (sleeps w + 2)%nat
  /\ pending (snd (_extract_gpu_from_listing text w)) = drop 3 (pending w).
Proof.
  intros H. unfold _extract_gpu_from_listing.
  change (seq 0 3) with [0; 1; 2]%nat.
  exact (attempt_loop_failing [0; 1; 2]%nat w H).
Qed.

Lemma identify_gives_up_after_three_witness :
  fst (_extract_gpu_from_listing "RTX 3070"
         (fresh [None; Some EmptyString; None; Some "RTX,3070"])) = None
  /\ calls (snd (_extract_gpu_from_listing "RTX 3070"
                   (fresh [None; Some EmptyString; None; Some "RTX,3070"])))
     = (calls (fresh [None; Some EmptyString; None; Some "RTX,3070"]) + 3)%nat
  /\ sleeps (snd (_extract_gpu_from_listing "RTX 3070"
                    (fresh [None; Some EmptyString; None; Some "RTX,3070"])))
     = (sleeps (fresh [None; Some EmptyString; None; Some "RTX,3070"]) + 2)%nat
  /\ pending (snd (_extract_gpu_from_listing "RTX 3070"
                     (fresh [None; Some EmptyString; None; Some "RTX,3070"])))
     = drop 3 (pending (fresh [None; Some EmptyString; None; Some "RTX,3070"])).
Proof.
  apply (identify_gives_up_after_three "RTX 3070"
           (fresh [None; Some EmptyString; None; Some "RTX,3070"])).
  repeat constructor.
Defined.








End ServiceDown.

(** ** The service's rating comes first *)

Section Precedence.



End Precedence.
